(** * Salary advance and loan API: the calculation engine of Backend/main.py

    A shallow embedding of [src/Backend/main.py] and the properties of its
    specification that can be settled on it.

    Numbers.  The source computes with Python [float]s and with pandas
    columns of [float64].  The embedding takes every such number as an exact
    rational ([Q]): products, quotients and sums are exact, and the only
    rounding is the one the source asks for ([round(x, 2)], [df.round(2)]),
    modelled as rounding to the nearest hundredth, ties to even.  What the
    binary64 format adds on top (representation error, overflow to [inf]
    or [OverflowError], [nan]) is outside the model.  Three places of the
    source can therefore raise where the model returns: the power
    [(1 + monthly_rate) ** term_months] of the schedule when it leaves the
    range of a double ([OverflowError]), its division when [1 +
    monthly_rate] rounds to [1.0] ([ZeroDivisionError] at a rate that is
    not zero), and the frame of the schedule when the term is too large to
    allocate ([ValueError], [MemoryError]); and the period count of
    [calculate_compound_interest] is the term in binary64 for ordinary
    terms ([periods_binary64_exact]) but not for every term.  The
    properties that say the code returns are stated for [ordinary_loan]
    fields, where none of this happens.  [int] values are [Z], [str]
    values are [string], the [loans_db] dict is a [gmap string LoanRecord],
    a pandas column is a [list].

    Effects.  Exceptions are an explicit [result]; the two values that
    [calculate_advance] draws from its environment ([uuid.uuid4()] and
    [datetime.now()]) are arguments; the store is threaded through. *)

From Stdlib Require Import QArith Qround Qabs Qpower Qminmax ZArith Lia Lqa String List.
From Stdlib Require Import PrimFloat Uint63.
From stdpp Require Import gmap strings pretty.
Import ListNotations.

Local Open Scope Q_scope.
Local Open Scope string_scope.

(** ** Python values and builtins *)

Module Py.

(** The exceptions the modelled code can raise. *)
Inductive exn : Type :=
| ValueError (msg : string)
| ZeroDivisionError.

Inductive result (A : Type) : Type :=
| Ok (a : A)
| Raise (e : exn).
Arguments Ok {A} a.
Arguments Raise {A} e.

#[global] Instance result_bind : MBind result := fun A B k m =>
  match m with
  | Ok a => k a
  | Raise e => Raise e
  end.

(** [a < b], [a > b] and [a >= b] on numbers. *)
Definition ltb (a b : Q) : bool := negb (Qle_bool b a).
Definition gtb (a b : Q) : bool := ltb b a.
Definition geb (a b : Q) : bool := Qle_bool b a.

(** [max(a, b)] and [min(a, b)]: the first argument is kept unless the
    second one is strictly better. *)
Definition max (a b : Q) : Q := if gtb b a then b else a.
Definition min (a b : Q) : Q := if ltb b a then b else a.

(** Rounding to the nearest integer, ties to even. *)
Definition round_half_even (x : Q) : Z :=
  let f := Qfloor x in
  match Qcompare (x - inject_Z f) (1 # 2) with
  | Lt => f
  | Gt => (f + 1)%Z
  | Eq => if Z.even f then f else (f + 1)%Z
  end.

(** [round(x, 2)], and pandas' [round(2)] on one cell. *)
Definition round2 (x : Q) : Q := round_half_even (x * 100) # 100.

(** Truth value of an [Optional[float]], [Optional[int]] and
    [Optional[bool]]: [None] and zero are false. *)
Definition truthy_float (o : option Q) : bool :=
  match o with
  | Some x => negb (Qeq_bool x 0)
  | None => false
  end.

Definition truthy_int (o : option Z) : bool :=
  match o with
  | Some n => negb (n =? 0)%Z
  | None => false
  end.

Definition truthy_bool (o : option bool) : bool :=
  match o with
  | Some b => b
  | None => false
  end.

(** [x ** n] for a float [x] and an int [n]: zero to a negative power
    raises.  The exact power is returned: the [OverflowError] of a result
    beyond the range of a double is not modelled. *)
Definition pow_int (x : Q) (n : Z) : result Q :=
  if Qeq_bool x 0 && (n <? 0)%Z then Raise ZeroDivisionError
  else Ok (Qpower x n).

(** [x ** y] on a float64 column, for a float exponent [y].  With exact
    rationals the power is defined at integral exponents; the source
    applies it at [n * t = 12 * (term_months / 12)] only, which
    [periods_integral] below shows to be the integer [term_months], so the
    integer part taken here is the exponent itself. *)
Definition pow_float (x y : Q) : Q := Qpower x (Qfloor y).

(** [a / b] on floats. *)
Definition div (a b : Q) : result Q :=
  if Qeq_bool b 0 then Raise ZeroDivisionError else Ok (a / b).

End Py.

(** ** Salary normalizer *)

Definition convert_to_monthly_salary (gross_salary : Q) (pay_frequency : string)
  : Py.result Q :=
  if String.eqb pay_frequency "Weekly" then
    Py.Ok (gross_salary * 52 / 12)
  else if String.eqb pay_frequency "Bi-Weekly" then
    Py.Ok (gross_salary * 26 / 12)
  else if String.eqb pay_frequency "Monthly" then
    Py.Ok gross_salary
  else if String.eqb pay_frequency "Annually" then
    Py.Ok (gross_salary / 12)
  else
    Py.Raise (Py.ValueError "Invalid pay frequency").

(** ** Loan amortizer *)

(** The frame built by [calculate_compound_interest] has one row: each of
    its columns is written as its single cell. *)
Definition calculate_compound_interest (principal rate : Q) (term_months : Z) : Q :=
  let n := 12 in
  let t := inject_Z term_months / 12 in
  let rate := rate / 100 in
  let df_principal := principal in
  let df_rate_per_period := rate / n in
  let df_periods := n * t in
  let df_total_repayable :=
    df_principal * Py.pow_float (1 + df_rate_per_period) df_periods in
  Py.round2 df_total_repayable.

(** The pandas operations of [generate_amortization_schedule], on columns
    as lists. *)
Module Pd.

(** A scalar given for a column is repeated over the index. *)
Definition broadcast (n : nat) (x : Q) : list Q := repeat x n.

Definition mul_scalar (s : list Q) (c : Q) : list Q := map (fun x => x * c) s.

Fixpoint sub (a b : list Q) : list Q :=
  match a, b with
  | x :: a', y :: b' => (x - y) :: sub a' b'
  | _, _ => []
  end.

(** [s.shift(1, fill_value=fill)]: every cell moves one row down, the last
    one is dropped and the first row takes [fill]. *)
Definition shift1 (fill : Q) (s : list Q) : list Q :=
  match s with
  | [] => []
  | _ :: _ => fill :: removelast s
  end.

Fixpoint cumsum_from (acc : Q) (s : list Q) : list Q :=
  match s with
  | [] => []
  | x :: s' => (acc + x) :: cumsum_from (acc + x) s'
  end.

Definition cumsum (s : list Q) : list Q :=
  match s with
  | [] => []
  | x :: s' => x :: cumsum_from x s'
  end.

Definition clip_lower (lo : Q) (s : list Q) : list Q :=
  map (fun x => if Py.ltb x lo then lo else x) s.

Definition round2 (s : list Q) : list Q := map Py.round2 s.

End Pd.

Record AmortizationRow : Type := {
  Month : Z;
  Payment : Q;
  Principal : Q;
  Interest : Q;
  Balance : Q
}.

(** [df.to_dict("records")] on the five selected columns. *)
Fixpoint to_records (month : list Z) (payment principal interest balance : list Q)
  : list AmortizationRow :=
  match month, payment, principal, interest, balance with
  | m :: month', p :: payment', c :: principal', i :: interest', b :: balance' =>
      {| Month := m; Payment := p; Principal := c; Interest := i; Balance := b |}
      :: to_records month' payment' principal' interest' balance'
  | _, _, _, _, _ => []
  end.

(** [range(1, stop)]. *)
Definition range1 (stop : Z) : list Z :=
  map Z.of_nat (seq 1 (Z.to_nat (stop - 1))).

(** The payment formula evaluates [(1 + monthly_rate) ** term_months]
    twice and divides Python floats, so it can raise.  With exact rationals
    the division is by zero only when the growth factor is exactly 1, and
    the frame operations that follow raise nothing; in binary64 the
    division is also by zero when [1 + monthly_rate] rounds to [1.0], and
    pandas refuses a frame too large to allocate. *)
Definition generate_amortization_schedule (principal rate : Q) (term_months : Z)
  : Py.result (list AmortizationRow) :=
  let monthly_rate := rate / 100 / 12 in
  growth ← Py.pow_int (1 + monthly_rate) term_months;
  growth' ← Py.pow_int (1 + monthly_rate) term_months;
  monthly_payment ← Py.div (principal * (monthly_rate * growth)) (growth' - 1);
  let monthly_payment := Py.round2 monthly_payment in
  let df_Month := range1 (term_months + 1) in
  let rows := length df_Month in
  let df_Balance := Pd.broadcast rows principal in
  let df_Payment := Pd.broadcast rows monthly_payment in
  let df_Interest := Pd.mul_scalar df_Balance monthly_rate in
  let df_Principal := Pd.sub df_Payment df_Interest in
  let df_Balance := Pd.sub (Pd.shift1 principal df_Balance) (Pd.cumsum df_Principal) in
  let df_Balance := Pd.clip_lower 0 df_Balance in
  Py.Ok (to_records df_Month (Pd.round2 df_Payment) (Pd.round2 df_Principal)
           (Pd.round2 df_Interest) (Pd.round2 df_Balance)).

(** ** Request orchestrator *)

Record AdvanceRequest : Type := {
  gross_salary : Q;
  pay_frequency : string;
  advance_amount : Q;
  loan_amount : option Q;
  interest_rate : option Q;
  loan_term : option Z;
  include_amortization : option bool
}.

Record AdvanceResponse : Type := {
  eligible : bool;
  max_advance : Q;
  approved_amount : Q;
  fee : Q;
  total_repayable : option Q;
  amortization_schedule : option (list AmortizationRow);
  message : string;
  loan_id : option string
}.

(** The dict stored in [loans_db], one field per key. *)
Record LoanRecord : Type := {
  rec_loan_id : string;
  rec_advance_amount : Q;
  rec_fee : Q;
  rec_timestamp : string;
  rec_gross_salary : Q;
  rec_pay_frequency : string;
  rec_loan_amount : option Q;
  rec_interest_rate : option Q;
  rec_loan_term : option Z;
  rec_total_repayable : option Q;
  rec_amortization_schedule : option (list AmortizationRow)
}.

(** The format specification [,.2f]: two decimals, thousands separated by
    commas. *)
Module Fmt.

Definition pad (width : nat) (s : string) : string :=
  String.concat "" (repeat "0" (width - String.length s)) +:+ s.

Fixpoint thousands (fuel : nat) (n : N) : string :=
  match fuel with
  | O => pretty n
  | S fuel' =>
      if (n <? 1000)%N then pretty n
      else thousands fuel' (n / 1000)%N +:+ "," +:+ pad 3 (pretty (n mod 1000)%N)
  end.

Definition money (x : Q) : string :=
  let cents := Z.to_N (Py.round_half_even (Qabs x * 100)) in
  (if Py.ltb x 0 then "-" else "")
  +:+ thousands (N.size_nat cents) (cents / 100)%N
  +:+ "." +:+ pad 2 (pretty (cents mod 100)%N).

End Fmt.

Definition ineligible_message : string :=
  "Ineligible: Monthly salary is below the minimum threshold of $1000.".

Definition exceeds_message (advance max_advance : Q) : string :=
  "Requested advance ($" +:+ Fmt.money advance
  +:+ ") exceeds maximum allowed ($" +:+ Fmt.money max_advance +:+ ").".

Definition approved_message (advance fee : Q) (total_repayable : option Q)
    (loan_term : option Z) : string :=
  let message :=
    "Advance approved! Amount: $" +:+ Fmt.money advance
    +:+ ", Fee: $" +:+ Fmt.money fee in
  match total_repayable with
  | Some total =>
      if Py.truthy_float total_repayable then
        message +:+ ". Loan repayable: $" +:+ Fmt.money total +:+ " over "
        +:+ match loan_term with Some n => pretty n | None => "None" end
        +:+ " months."
      else message
  | None => message
  end.

(** Step 5 of [calculate_advance]: the loan figures, computed when
    [loan_amount], [interest_rate] and [loan_term] are all true values. *)
Definition loan_figures (request : AdvanceRequest)
  : Py.result (option Q * option (list AmortizationRow)) :=
  match loan_amount request, interest_rate request, loan_term request with
  | Some amount, Some rate, Some term =>
      if Py.truthy_float (loan_amount request)
         && Py.truthy_float (interest_rate request)
         && Py.truthy_int (loan_term request)
      then
        let total_repayable := calculate_compound_interest amount rate term in
        if Py.truthy_bool (include_amortization request) then
          schedule ← generate_amortization_schedule amount rate term;
          Py.Ok (Some total_repayable, Some schedule)
        else Py.Ok (Some total_repayable, None)
      else Py.Ok (None, None)
  | _, _, _ => Py.Ok (None, None)
  end.

(** The body of the [try] block.  [uuid4] is the value of
    [str(uuid.uuid4())] and [now] that of [datetime.now().isoformat()] for
    this call; the result carries the store after the call. *)
Definition calculate_advance_body (request : AdvanceRequest) (uuid4 now : string)
    (loans_db : gmap string LoanRecord)
  : Py.result (AdvanceResponse * gmap string LoanRecord) :=
  monthly_salary ← convert_to_monthly_salary (gross_salary request) (pay_frequency request);
  let min_salary_threshold := 1000 in
  let eligible := Py.geb monthly_salary min_salary_threshold in
  if negb eligible then
    Py.Ok ({| eligible := false; max_advance := 0; approved_amount := 0; fee := 0;
              total_repayable := None; amortization_schedule := None;
              message := ineligible_message; loan_id := None |}, loans_db)
  else
    let max_advance := monthly_salary * 0.5 in
    if Py.gtb (advance_amount request) max_advance then
      Py.Ok ({| eligible := true; max_advance := max_advance; approved_amount := 0;
                fee := 0; total_repayable := None; amortization_schedule := None;
                message := exceeds_message (advance_amount request) max_advance;
                loan_id := None |}, loans_db)
    else
      let fee := Py.max 10 (Py.min 50 (advance_amount request * 0.05)) in
      figures ← loan_figures request;
      let total_repayable := fst figures in
      let amortization_schedule := snd figures in
      let loan_id := uuid4 in
      let loan_record :=
        {| rec_loan_id := loan_id;
           rec_advance_amount := advance_amount request;
           rec_fee := fee;
           rec_timestamp := now;
           rec_gross_salary := gross_salary request;
           rec_pay_frequency := pay_frequency request;
           rec_loan_amount := loan_amount request;
           rec_interest_rate := interest_rate request;
           rec_loan_term := loan_term request;
           rec_total_repayable := total_repayable;
           rec_amortization_schedule := amortization_schedule |} in
      let loans_db := <[loan_id := loan_record]> loans_db in
      Py.Ok ({| eligible := true; max_advance := max_advance;
                approved_amount := advance_amount request; fee := fee;
                total_repayable := total_repayable;
                amortization_schedule := amortization_schedule;
                message := approved_message (advance_amount request) fee
                             total_repayable (loan_term request);
                loan_id := Some loan_id |}, loans_db).

(** What the endpoint hands back: the response, or the [HTTPException] the
    [except] clauses raise. *)
Inductive http_result (A : Type) : Type :=
| Returned (a : A)
| HTTPException (status_code : Z) (detail : string).
Arguments Returned {A} a.
Arguments HTTPException {A} status_code detail.

(** [calculate_advance]: the store is written by the last statement that
    can be reached before the [return], so a raised exception leaves it as
    it was. *)
Definition calculate_advance (request : AdvanceRequest) (uuid4 now : string)
    (loans_db : gmap string LoanRecord)
  : http_result AdvanceResponse * gmap string LoanRecord :=
  match calculate_advance_body request uuid4 now loans_db with
  | Py.Ok (response, loans_db') => (Returned response, loans_db')
  | Py.Raise (Py.ValueError msg) => (HTTPException 400 msg, loans_db)
  | Py.Raise _ => (HTTPException 500 "Internal server error", loans_db)
  end.

Definition get_loan (loan_id : string) (loans_db : gmap string LoanRecord)
  : http_result LoanRecord :=
  match loans_db !! loan_id with
  | Some loan => Returned loan
  | None => HTTPException 404 "Loan not found"
  end.

(** * Vocabulary of the properties *)

(** The four pay frequencies the normalizer knows. *)
Definition known_frequency (f : string) : Prop :=
  f = "Weekly" \/ f = "Bi-Weekly" \/ f = "Monthly" \/ f = "Annually".


(** The frame of [generate_amortization_schedule] once the rounded payment
    is known. *)
Definition schedule_of_payment (principal monthly_rate monthly_payment : Q)
    (term_months : Z) : list AmortizationRow :=
  let rows := length (range1 (term_months + 1)) in
  to_records (range1 (term_months + 1))
    (Pd.broadcast rows (Py.round2 monthly_payment))
    (Pd.broadcast rows (Py.round2 (monthly_payment - principal * monthly_rate)))
    (Pd.broadcast rows (Py.round2 (principal * monthly_rate)))
    (Pd.round2
       (Pd.clip_lower 0
          (Pd.sub (Pd.shift1 principal (Pd.broadcast rows principal))
             (Pd.cumsum
                (Pd.broadcast rows (monthly_payment - principal * monthly_rate)))))).

Definition sum_principal (rows : list AmortizationRow) : Q :=
  fold_right Qplus 0 (map Principal rows).

(** The record written by step 6 and the response of step 7, for a request
    that reaches them with the given loan figures. *)
Definition approved_record (request : AdvanceRequest) (uuid4 now : string)
    (figures : option Q * option (list AmortizationRow)) : LoanRecord :=
  {| rec_loan_id := uuid4;
     rec_advance_amount := advance_amount request;
     rec_fee := Py.max 10 (Py.min 50 (advance_amount request * 0.05));
     rec_timestamp := now;
     rec_gross_salary := gross_salary request;
     rec_pay_frequency := pay_frequency request;
     rec_loan_amount := loan_amount request;
     rec_interest_rate := interest_rate request;
     rec_loan_term := loan_term request;
     rec_total_repayable := fst figures;
     rec_amortization_schedule := snd figures |}.

Definition approved_response (request : AdvanceRequest) (uuid4 : string)
    (monthly_salary : Q) (figures : option Q * option (list AmortizationRow))
  : AdvanceResponse :=
  {| eligible := true; max_advance := monthly_salary * 0.5;
     approved_amount := advance_amount request;
     fee := Py.max 10 (Py.min 50 (advance_amount request * 0.05));
     total_repayable := fst figures;
     amortization_schedule := snd figures;
     message := approved_message (advance_amount request)
                  (Py.max 10 (Py.min 50 (advance_amount request * 0.05)))
                  (fst figures) (loan_term request);
     loan_id := Some uuid4 |}.

Definition snapshot_of (record : LoanRecord) (request : AdvanceRequest) : Prop :=
  rec_advance_amount record = advance_amount request
  /\ rec_gross_salary record = gross_salary request
  /\ rec_pay_frequency record = pay_frequency request
  /\ rec_loan_amount record = loan_amount request
  /\ rec_interest_rate record = interest_rate request
  /\ rec_loan_term record = loan_term request.

(** One record, keyed by the generated identifier and holding the
    timestamp and the request fields, is added to the store, and the
    response carries its identifier. *)
Definition record_inserted (request : AdvanceRequest) (uuid4 now : string)
    (loans_db : gmap string LoanRecord) : Prop :=
  exists response record,
    calculate_advance request uuid4 now loans_db
    = (Returned response, <[uuid4 := record]> loans_db)
    /\ loan_id response = Some uuid4
    /\ rec_loan_id record = uuid4
    /\ rec_timestamp record = now
    /\ snapshot_of record request
    /\ rec_total_repayable record = total_repayable response
    /\ rec_amortization_schedule record = amortization_schedule response.

(** Requests used as examples: a salary, an advance and, possibly, a loan
    (amount, rate, term), without the schedule. *)
Definition request_of (gross : Q) (frequency : string) (advance : Q)
    (loan : option (Q * Q * Z)) : AdvanceRequest :=
  {| gross_salary := gross; pay_frequency := frequency; advance_amount := advance;
     loan_amount := (fun l => fst (fst l)) <$> loan;
     interest_rate := (fun l => snd (fst l)) <$> loan;
     loan_term := snd <$> loan;
     include_amortization := Some false |}.

Definition example_uuid : string := "9f1c2d3e-0000-4000-8000-000000000001".
Definition example_now : string := "2024-01-01T00:00:00".



(** * The other code of the repository *)

(** ** The first orchestrator, [src/main.py]

    The same endpoint without the loan computations: the request has no
    [include_amortization], the response and the stored dict have no
    [total_repayable] and no [amortization_schedule], and the message only
    reports the loan details.  [float_str] stands for [str()] of a float
    (the shortest decimal that reads back as the same double), which the
    rational model does not determine. *)
Module Legacy.

Record AdvanceRequest : Type := {
  gross_salary : Q;
  pay_frequency : string;
  advance_amount : Q;
  loan_amount : option Q;
  interest_rate : option Q;
  loan_term : option Z
}.

Record AdvanceResponse : Type := {
  eligible : bool;
  max_advance : Q;
  approved_amount : Q;
  fee : Q;
  message : string;
  loan_id : option string
}.

Record LoanRecord : Type := {
  rec_loan_id : string;
  rec_advance_amount : Q;
  rec_fee : Q;
  rec_timestamp : string;
  rec_gross_salary : Q;
  rec_pay_frequency : string;
  rec_loan_amount : option Q;
  rec_interest_rate : option Q;
  rec_loan_term : option Z
}.

Definition convert_to_monthly_salary (gross_salary : Q) (pay_frequency : string)
  : Py.result Q :=
  if String.eqb pay_frequency "Weekly" then
    Py.Ok (gross_salary * 52 / 12)
  else if String.eqb pay_frequency "Bi-Weekly" then
    Py.Ok (gross_salary * 26 / 12)
  else if String.eqb pay_frequency "Monthly" then
    Py.Ok gross_salary
  else if String.eqb pay_frequency "Annually" then
    Py.Ok (gross_salary / 12)
  else
    Py.Raise (Py.ValueError "Invalid pay frequency").

Definition approved_message (float_str : Q -> string) (request : AdvanceRequest)
    (fee : Q) : string :=
  let message :=
    "Advance approved! Amount: $" +:+ Fmt.money (advance_amount request)
    +:+ ", Fee: $" +:+ Fmt.money fee in
  match loan_amount request, interest_rate request, loan_term request with
  | Some amount, Some rate, Some term =>
      if Py.truthy_float (loan_amount request)
         && Py.truthy_float (interest_rate request)
         && Py.truthy_int (loan_term request)
      then
        message +:+ ". Loan details recorded: $" +:+ Fmt.money amount
        +:+ " at " +:+ float_str rate +:+ "% for " +:+ pretty term +:+ " months."
      else message
  | _, _, _ => message
  end.

Definition calculate_advance_body (float_str : Q -> string)
    (request : AdvanceRequest) (uuid4 now : string)
    (loans_db : gmap string LoanRecord)
  : Py.result (AdvanceResponse * gmap string LoanRecord) :=
  monthly_salary ← convert_to_monthly_salary (gross_salary request) (pay_frequency request);
  let min_salary_threshold := 1000 in
  let eligible := Py.geb monthly_salary min_salary_threshold in
  if negb eligible then
    Py.Ok ({| eligible := false; max_advance := 0; approved_amount := 0; fee := 0;
              message := ineligible_message; loan_id := None |}, loans_db)
  else
    let max_advance := monthly_salary * 0.5 in
    if Py.gtb (advance_amount request) max_advance then
      Py.Ok ({| eligible := true; max_advance := max_advance; approved_amount := 0;
                fee := 0;
                message := exceeds_message (advance_amount request) max_advance;
                loan_id := None |}, loans_db)
    else
      let fee := Py.max 10 (Py.min 50 (advance_amount request * 0.05)) in
      let loan_id := uuid4 in
      let loan_record :=
        {| rec_loan_id := loan_id;
           rec_advance_amount := advance_amount request;
           rec_fee := fee;
           rec_timestamp := now;
           rec_gross_salary := gross_salary request;
           rec_pay_frequency := pay_frequency request;
           rec_loan_amount := loan_amount request;
           rec_interest_rate := interest_rate request;
           rec_loan_term := loan_term request |} in
      let loans_db := <[loan_id := loan_record]> loans_db in
      Py.Ok ({| eligible := true; max_advance := max_advance;
                approved_amount := advance_amount request; fee := fee;
                message := approved_message float_str request fee;
                loan_id := Some loan_id |}, loans_db).

Definition calculate_advance (float_str : Q -> string)
    (request : AdvanceRequest) (uuid4 now : string)
    (loans_db : gmap string LoanRecord)
  : http_result AdvanceResponse * gmap string LoanRecord :=
  match calculate_advance_body float_str request uuid4 now loans_db with
  | Py.Ok (response, loans_db') => (Returned response, loans_db')
  | Py.Raise (Py.ValueError msg) => (HTTPException 400 msg, loans_db)
  | Py.Raise _ => (HTTPException 500 "Internal server error", loans_db)
  end.

Definition get_loan (loan_id : string) (loans_db : gmap string LoanRecord)
  : http_result LoanRecord :=
  match loans_db !! loan_id with
  | Some loan => Returned loan
  | None => HTTPException 404 "Loan not found"
  end.

End Legacy.

(** What [src/main.py] sees of a request and keeps of a record. *)
Definition legacy_request (request : AdvanceRequest) : Legacy.AdvanceRequest :=
  {| Legacy.gross_salary := gross_salary request;
     Legacy.pay_frequency := pay_frequency request;
     Legacy.advance_amount := advance_amount request;
     Legacy.loan_amount := loan_amount request;
     Legacy.interest_rate := interest_rate request;
     Legacy.loan_term := loan_term request |}.

Definition legacy_record (record : LoanRecord) : Legacy.LoanRecord :=
  {| Legacy.rec_loan_id := rec_loan_id record;
     Legacy.rec_advance_amount := rec_advance_amount record;
     Legacy.rec_fee := rec_fee record;
     Legacy.rec_timestamp := rec_timestamp record;
     Legacy.rec_gross_salary := rec_gross_salary record;
     Legacy.rec_pay_frequency := rec_pay_frequency record;
     Legacy.rec_loan_amount := rec_loan_amount record;
     Legacy.rec_interest_rate := rec_interest_rate record;
     Legacy.rec_loan_term := rec_loan_term record |}.

(** ** The form, [src/Frontend/front.py]

    The values of the widgets when the form is submitted, and the JSON
    payload built from them.  The three loan widgets exist only when the
    loan box is ticked; the payload has no [include_amortization] key, so
    the request model of the backend takes its default, [False]. *)
Module Frontend.

Record Form : Type := {
  gross_salary : Q;
  pay_frequency : string;
  advance_amount : Q;
  include_loan : bool;
  loan_amount : Q;
  interest_rate : Q;
  loan_term : Z
}.

(** The bounds the widgets enforce: [min_value], [max_value] and the
    options of the select box. *)
Definition widgets (form : Form) : Prop :=
  0 <= gross_salary form
  /\ In (pay_frequency form) ["Weekly"; "Bi-Weekly"; "Monthly"; "Annually"]
  /\ 0 <= advance_amount form
  /\ (include_loan form = true ->
      0 <= loan_amount form
      /\ 0 <= interest_rate form /\ interest_rate form <= 100
      /\ (1 <= loan_term form)%Z).

End Frontend.

Definition payload (form : Frontend.Form) : AdvanceRequest :=
  {| gross_salary := Frontend.gross_salary form;
     pay_frequency := Frontend.pay_frequency form;
     advance_amount := Frontend.advance_amount form;
     loan_amount :=
       if Frontend.include_loan form then Some (Frontend.loan_amount form) else None;
     interest_rate :=
       if Frontend.include_loan form then Some (Frontend.interest_rate form) else None;
     loan_term :=
       if Frontend.include_loan form then Some (Frontend.loan_term form) else None;
     include_amortization := Some false |}.

(** ** A sequence of calls

    The endpoint served call after call on the one store: each call comes
    with its request and with the identifier and the timestamp drawn for
    it. *)
Fixpoint serve (calls : list (AdvanceRequest * string * string))
    (loans_db : gmap string LoanRecord)
  : list (http_result AdvanceResponse) * gmap string LoanRecord :=
  match calls with
  | [] => ([], loans_db)
  | (request, uuid4, now) :: calls' =>
      let step := calculate_advance request uuid4 now loans_db in
      let rest := serve calls' (snd step) in
      (fst step :: fst rest, snd rest)
  end.

(** The test of step 5: loan amount, interest rate and loan term are all
    true values. *)
Definition loan_triple_truthy (request : AdvanceRequest) : bool :=
  Py.truthy_float (loan_amount request)
  && Py.truthy_float (interest_rate request)
  && Py.truthy_int (loan_term request).

(** Ordinary loan fields: when an interest rate and a loan term are both
    given, the term is between 0 and 1200 months and the rate is 0 or
    between 0.01 and 100 percent.  Within these bounds binary64 raises
    where the exact arithmetic of the model does and nowhere else: [1 +
    monthly_rate] is above [1.0], the growth factor stays below [1e42] and
    the frame has at most 1200 rows. *)
Definition ordinary_loan (request : AdvanceRequest) : Prop :=
  forall rate term,
    interest_rate request = Some rate ->
    loan_term request = Some term ->
    (0 <= term <= 1200)%Z /\ (rate == 0 \/ (0.01 <= rate /\ rate <= 100)).

(** A request that asks for the schedule of a loan at -2400 percent over 2
    months: the monthly rate is -2, the growth factor [(-1) ** 2] is 1. *)
Definition request_negative_rate : AdvanceRequest :=
  {| gross_salary := 4000; pay_frequency := "Monthly"; advance_amount := 1500;
     loan_amount := Some 10000; interest_rate := Some (-2400);
     loan_term := Some 2%Z; include_amortization := Some true |}.

(** Two conversions that succeed with the same monthly figure. *)
Definition same_monthly (a b : Py.result Q) : Prop :=
  match a, b with
  | Py.Ok x, Py.Ok y => x == y
  | _, _ => False
  end.

(** The identifier drawn for a call. *)
Definition call_id (call : AdvanceRequest * string * string) : string :=
  snd (fst call).

(** The identifier an answer carries, if any. *)
Definition answered_id (answer : http_result AdvanceResponse) : option string :=
  match answer with
  | Returned response => loan_id response
  | HTTPException _ _ => None
  end.

Fixpoint approvals (answers : list (http_result AdvanceResponse)) : nat :=
  match answers with
  | [] => O
  | answer :: answers' =>
      match answered_id answer with
      | Some _ => S (approvals answers')
      | None => approvals answers'
      end
  end.

(** * Properties *)

(** ** Comparisons, [max] and [min] *)

Section Comparisons.

Lemma geb_true (a b : Q) : Py.geb a b = true <-> b <= a.
Proof. unfold Py.geb. apply Qle_bool_iff. Qed.

Lemma geb_false (a b : Q) : Py.geb a b = false <-> a < b.
Proof.
  unfold Py.geb. split; intros H.
  - apply Qnot_le_lt. intros Hle. apply Qle_bool_iff in Hle. congruence.
  - destruct (Qle_bool b a) eqn:E; [|reflexivity].
    apply Qle_bool_iff in E. exfalso. exact (Qlt_not_le _ _ H E).
Qed.

Lemma ltb_true (a b : Q) : Py.ltb a b = true <-> a < b.
Proof.
  unfold Py.ltb. rewrite negb_true_iff. apply geb_false.
Qed.

Lemma ltb_false (a b : Q) : Py.ltb a b = false <-> b <= a.
Proof.
  unfold Py.ltb. rewrite negb_false_iff. apply geb_true.
Qed.

Lemma gtb_true (a b : Q) : Py.gtb a b = true <-> b < a.
Proof. unfold Py.gtb. apply ltb_true. Qed.

Lemma gtb_false (a b : Q) : Py.gtb a b = false <-> a <= b.
Proof. unfold Py.gtb. apply ltb_false. Qed.

Lemma max_lower (a b : Q) : a <= Py.max a b.
Proof.
  unfold Py.max. destruct (Py.gtb b a) eqn:E.
  - apply gtb_true in E. apply Qlt_le_weak, E.
  - apply Qle_refl.
Qed.

Lemma max_upper (a b c : Q) : a <= c -> b <= c -> Py.max a b <= c.
Proof. unfold Py.max. destruct (Py.gtb b a); auto. Qed.

Lemma min_upper (a b : Q) : Py.min a b <= a.
Proof.
  unfold Py.min. destruct (Py.ltb b a) eqn:E.
  - apply ltb_true in E. apply Qlt_le_weak, E.
  - apply Qle_refl.
Qed.

Lemma Qeq_bool_false (a b : Q) : ~ a == b -> Qeq_bool a b = false.
Proof.
  intros H. destruct (Qeq_bool a b) eqn:E; [|reflexivity].
  apply Qeq_bool_iff in E. contradiction.
Qed.

(** The fee formula of step 4 stays in its band for every advance. *)
Lemma fee_band (x : Q) :
  10 <= Py.max 10 (Py.min 50 x) /\ Py.max 10 (Py.min 50 x) <= 50.
Proof.
  split; [apply max_lower|].
  apply max_upper; [discriminate | apply min_upper].
Qed.

End Comparisons.

(** ** The normalizer *)

Lemma convert_known (g : Q) :
  convert_to_monthly_salary g "Weekly" = Py.Ok (g * 52 / 12)
  /\ convert_to_monthly_salary g "Bi-Weekly" = Py.Ok (g * 26 / 12)
  /\ convert_to_monthly_salary g "Monthly" = Py.Ok g
  /\ convert_to_monthly_salary g "Annually" = Py.Ok (g / 12).
Proof. repeat split. Qed.

Lemma convert_unknown (g : Q) (f : string) :
  ~ known_frequency f ->
  convert_to_monthly_salary g f = Py.Raise (Py.ValueError "Invalid pay frequency").
Proof.
  intros Hf. unfold convert_to_monthly_salary, known_frequency in *.
  destruct (String.eqb_spec f "Weekly") as [-> | _]; [tauto|].
  destruct (String.eqb_spec f "Bi-Weekly") as [-> | _]; [tauto|].
  destruct (String.eqb_spec f "Monthly") as [-> | _]; [tauto|].
  destruct (String.eqb_spec f "Annually") as [-> | _]; [tauto|].
  reflexivity.
Qed.

Lemma convert_raises_only_unknown (g : Q) (f : string) (e : Py.exn) :
  convert_to_monthly_salary g f = Py.Raise e -> ~ known_frequency f.
Proof.
  intros H [-> | [-> | [-> | ->]]]; discriminate H.
Qed.

(** C10, as amended.  [convert_to_monthly_salary] raises exactly when the
    pay frequency is not one of Weekly, Bi-Weekly, Monthly and Annually; the
    exception is then [ValueError("Invalid pay frequency")], a fixed message
    that does not carry the offending value.  For the four known
    frequencies it returns the conversion to a monthly figure:
    [g * 52 / 12], [g * 26 / 12], [g] and [g / 12]. *)
Theorem C10_invalid_frequency (g : Q) (f : string) :
  ((exists e, convert_to_monthly_salary g f = Py.Raise e) <-> ~ known_frequency f)
  /\ (forall e, convert_to_monthly_salary g f = Py.Raise e ->
        e = Py.ValueError "Invalid pay frequency")
  /\ convert_to_monthly_salary g "Weekly" = Py.Ok (g * 52 / 12)
  /\ convert_to_monthly_salary g "Bi-Weekly" = Py.Ok (g * 26 / 12)
  /\ convert_to_monthly_salary g "Monthly" = Py.Ok g
  /\ convert_to_monthly_salary g "Annually" = Py.Ok (g / 12).
Proof.
  split; [|split; [|apply convert_known]].
  - split.
    + intros [e He]. exact (convert_raises_only_unknown g f e He).
    + intros Hf. eexists. apply (convert_unknown g f Hf).
  - intros e He.
    pose proof (convert_raises_only_unknown g f e He) as Hf.
    rewrite (convert_unknown g f Hf) in He. congruence.
Qed.

(** C10, as stated, asks the failure to carry the offending frequency: the
    frequency would then be a function of the raised exception.  "Daily"
    and "Hourly" raise the same exception. *)
Lemma C10_counterexample :
  convert_to_monthly_salary 1000 "Daily" = Py.Raise (Py.ValueError "Invalid pay frequency")
  /\ convert_to_monthly_salary 1000 "Hourly" = convert_to_monthly_salary 1000 "Daily"
  /\ ~ (exists carried : Py.exn -> string,
          forall f, ~ known_frequency f ->
            exists e, convert_to_monthly_salary 1000 f = Py.Raise e /\ carried e = f).
Proof.
  split; [reflexivity|]. split; [reflexivity|].
  intros [carried H].
  assert (Hd : ~ known_frequency "Daily") by (intros [?|[?|[?|?]]]; discriminate).
  assert (Hh : ~ known_frequency "Hourly") by (intros [?|[?|[?|?]]]; discriminate).
  destruct (H _ Hd) as (e1 & He1 & Hc1).
  destruct (H _ Hh) as (e2 & He2 & Hc2).
  cbv in He1, He2. congruence.
Qed.

(** ** The three branches of [calculate_advance] *)

Section Branches.

Variables (request : AdvanceRequest) (uuid4 now : string).
Variable loans_db : gmap string LoanRecord.
Variable monthly_salary : Q.

Hypothesis normalized :
  convert_to_monthly_salary (gross_salary request) (pay_frequency request)
  = Py.Ok monthly_salary.

Lemma calculate_advance_ineligible :
  monthly_salary < 1000 ->
  calculate_advance request uuid4 now loans_db =
  (Returned {| eligible := false; max_advance := 0; approved_amount := 0; fee := 0;
               total_repayable := None; amortization_schedule := None;
               message := ineligible_message; loan_id := None |}, loans_db).
Proof.
  intros Hlow. apply geb_false in Hlow.
  unfold calculate_advance, calculate_advance_body.
  rewrite normalized. unfold mbind, Py.result_bind.
  rewrite Hlow. reflexivity.
Qed.

Lemma calculate_advance_over_cap :
  1000 <= monthly_salary ->
  monthly_salary * 0.5 < advance_amount request ->
  calculate_advance request uuid4 now loans_db =
  (Returned {| eligible := true; max_advance := monthly_salary * 0.5;
               approved_amount := 0; fee := 0;
               total_repayable := None; amortization_schedule := None;
               message := exceeds_message (advance_amount request) (monthly_salary * 0.5);
               loan_id := None |}, loans_db).
Proof.
  intros Hok Hcap. apply geb_true in Hok. apply gtb_true in Hcap.
  unfold calculate_advance, calculate_advance_body.
  rewrite normalized. unfold mbind, Py.result_bind.
  rewrite Hok. cbn [negb]. rewrite Hcap. reflexivity.
Qed.

Lemma calculate_advance_approved figures :
  1000 <= monthly_salary ->
  advance_amount request <= monthly_salary * 0.5 ->
  loan_figures request = Py.Ok figures ->
  calculate_advance request uuid4 now loans_db =
  (Returned (approved_response request uuid4 monthly_salary figures),
   <[uuid4 := approved_record request uuid4 now figures]> loans_db).
Proof.
  intros Hok Hcap Hfig. apply geb_true in Hok. apply gtb_false in Hcap.
  unfold calculate_advance, calculate_advance_body.
  rewrite normalized. unfold mbind, Py.result_bind.
  rewrite Hok. cbn [negb]. rewrite Hcap, Hfig. reflexivity.
Qed.

(** A failure of the loan computations is the only way for an approved
    advance not to be answered; the store is then left as it was. *)
Lemma calculate_advance_loan_failure e :
  1000 <= monthly_salary ->
  advance_amount request <= monthly_salary * 0.5 ->
  loan_figures request = Py.Raise e ->
  exists status detail,
    calculate_advance request uuid4 now loans_db
    = (HTTPException status detail, loans_db).
Proof.
  intros Hok Hcap Hfig. apply geb_true in Hok. apply gtb_false in Hcap.
  unfold calculate_advance, calculate_advance_body.
  rewrite normalized. unfold mbind, Py.result_bind.
  rewrite Hok. cbn [negb]. rewrite Hcap, Hfig.
  destruct e; eauto.
Qed.

End Branches.

Lemma calculate_advance_invalid_frequency request uuid4 now
    (loans_db : gmap string LoanRecord) e :
  convert_to_monthly_salary (gross_salary request) (pay_frequency request)
  = Py.Raise e ->
  calculate_advance request uuid4 now loans_db
  = (HTTPException 400 "Invalid pay frequency", loans_db).
Proof.
  intros He.
  pose proof (convert_raises_only_unknown _ _ _ He) as Hf.
  unfold calculate_advance, calculate_advance_body.
  rewrite (convert_unknown _ _ Hf). reflexivity.
Qed.

(** Every answered request went through one of the three branches. *)
Lemma calculate_advance_returned request uuid4 now
    (loans_db loans_db' : gmap string LoanRecord) response :
  calculate_advance request uuid4 now loans_db = (Returned response, loans_db') ->
  exists monthly_salary,
    convert_to_monthly_salary (gross_salary request) (pay_frequency request)
    = Py.Ok monthly_salary
    /\ ((monthly_salary < 1000
         /\ eligible response = false /\ loan_id response = None
         /\ loans_db' = loans_db)
        \/ (1000 <= monthly_salary
            /\ monthly_salary * 0.5 < advance_amount request
            /\ eligible response = true /\ loan_id response = None
            /\ loans_db' = loans_db)
        \/ (1000 <= monthly_salary
            /\ advance_amount request <= monthly_salary * 0.5
            /\ exists figures,
                 loan_figures request = Py.Ok figures
                 /\ response = approved_response request uuid4 monthly_salary figures
                 /\ loans_db' = <[uuid4 := approved_record request uuid4 now figures]> loans_db)).
Proof.
  intros Hret.
  destruct (convert_to_monthly_salary (gross_salary request) (pay_frequency request))
    as [ms|e] eqn:Hms.
  2:{ rewrite (calculate_advance_invalid_frequency _ _ _ _ _ Hms) in Hret.
      discriminate. }
  exists ms. split; [reflexivity|].
  destruct (Qlt_le_dec ms 1000) as [Hlow|Hok].
  { left. rewrite (calculate_advance_ineligible _ _ _ _ _ Hms Hlow) in Hret.
    injection Hret as <- <-. auto. }
  right.
  destruct (Qlt_le_dec (ms * 0.5) (advance_amount request)) as [Hcap|Hcap].
  { left. rewrite (calculate_advance_over_cap _ _ _ _ _ Hms Hok Hcap) in Hret.
    injection Hret as <- <-. auto. }
  right. split; [assumption|]. split; [assumption|].
  destruct (loan_figures request) as [figures|e] eqn:Hfig.
  - exists figures.
    rewrite (calculate_advance_approved _ _ _ _ _ Hms figures Hok Hcap Hfig) in Hret.
    injection Hret as <- <-. auto.
  - destruct (calculate_advance_loan_failure _ uuid4 now loans_db _ Hms e Hok Hcap Hfig)
      as (st & d & Hfail).
    rewrite Hfail in Hret. discriminate.
Qed.

(** ** Rounding *)

Lemma round_half_even_comp (x y : Q) :
  x == y -> Py.round_half_even x = Py.round_half_even y.
Proof.
  intros E. unfold Py.round_half_even.
  rewrite (Qfloor_comp _ _ E).
  assert (E' : x - inject_Z (Qfloor y) == y - inject_Z (Qfloor y)) by (rewrite E; reflexivity).
  rewrite (Qcompare_comp _ _ E' (1 # 2) (1 # 2) (Qeq_refl _)). reflexivity.
Qed.

Lemma round2_comp (x y : Q) : x == y -> Py.round2 x = Py.round2 y.
Proof.
  intros E. unfold Py.round2. f_equal.
  apply round_half_even_comp. rewrite E. reflexivity.
Qed.

Lemma round_half_even_Z (z : Z) : Py.round_half_even (inject_Z z) = z.
Proof.
  unfold Py.round_half_even. rewrite Qfloor_Z.
  assert (E : inject_Z z - inject_Z z == 0) by ring.
  rewrite (Qcompare_comp _ _ E (1 # 2) (1 # 2) (Qeq_refl _)). reflexivity.
Qed.

(** An amount in whole cents is left as it is. *)
Lemma round2_cents (c : Z) : Py.round2 (c # 100) = c # 100.
Proof.
  unfold Py.round2. f_equal.
  rewrite <- (round_half_even_Z c) at 2.
  apply round_half_even_comp.
  unfold Qeq, Qmult, inject_Z. simpl. lia.
Qed.

(** The rounded value is within half a unit, so it keeps the sign. *)
Lemma round_half_even_nonneg (x : Q) : 0 <= x -> (0 <= Py.round_half_even x)%Z.
Proof.
  intros Hx. unfold Py.round_half_even.
  assert (Hf : (0 <= Qfloor x)%Z).
  { rewrite <- (Qfloor_Z 0). apply Qfloor_resp_le. exact Hx. }
  destruct (Qcompare _ _); [destruct (Z.even _)| |]; lia.
Qed.

Lemma round2_nonneg (x : Q) : 0 <= x -> 0 <= Py.round2 x.
Proof.
  intros Hx. unfold Py.round2.
  assert (H : (0 <= Py.round_half_even (x * 100))%Z).
  { apply round_half_even_nonneg. lra. }
  unfold Qle. simpl. lia.
Qed.

(** ** Compound interest *)

(** At an integral exponent [Py.pow_float] is the power. *)
Lemma pow_float_integral (x : Q) (n : Z) : Py.pow_float x (inject_Z n) = x ^ n.
Proof. unfold Py.pow_float. rewrite Qfloor_Z. reflexivity. Qed.

(** The period count [n * t] of the source is the term itself. *)
Lemma periods_integral (term_months : Z) :
  12 * (inject_Z term_months / 12) == inject_Z term_months
  /\ Qfloor (12 * (inject_Z term_months / 12)) = term_months.
Proof.
  assert (E : 12 * (inject_Z term_months / 12) == inject_Z term_months) by field.
  split; [exact E|].
  rewrite (Qfloor_comp _ _ E). apply Qfloor_Z.
Qed.

Lemma compound_interest_closed_form (principal rate : Q) (term_months : Z) :
  calculate_compound_interest principal rate term_months
  = Py.round2 (principal * (1 + rate / 100 / 12) ^ term_months).
Proof.
  unfold calculate_compound_interest, Py.pow_float.
  destruct (periods_integral term_months) as [_ ->]. reflexivity.
Qed.


Lemma compound_interest_zero_term (principal rate : Q) :
  calculate_compound_interest principal rate 0 = Py.round2 principal.
Proof.
  rewrite compound_interest_closed_form. apply round2_comp.
  simpl. ring.
Qed.



(** ** The columns of the schedule *)

Section Columns.

Lemma mul_scalar_broadcast n x c :
  Pd.mul_scalar (Pd.broadcast n x) c = Pd.broadcast n (x * c).
Proof. unfold Pd.mul_scalar, Pd.broadcast. induction n; simpl; congruence. Qed.

Lemma sub_broadcast n x y :
  Pd.sub (Pd.broadcast n x) (Pd.broadcast n y) = Pd.broadcast n (x - y).
Proof. unfold Pd.broadcast. induction n; simpl; congruence. Qed.

Lemma round2_broadcast n x :
  Pd.round2 (Pd.broadcast n x) = Pd.broadcast n (Py.round2 x).
Proof. unfold Pd.round2, Pd.broadcast. induction n; simpl; congruence. Qed.

Lemma length_broadcast n x : length (Pd.broadcast n x) = n.
Proof. apply repeat_length. Qed.

Lemma length_cumsum_from acc s : length (Pd.cumsum_from acc s) = length s.
Proof. revert acc. induction s; intros; simpl; auto. Qed.

Lemma length_cumsum s : length (Pd.cumsum s) = length s.
Proof. destruct s; simpl; [|rewrite length_cumsum_from]; reflexivity. Qed.

Lemma length_shift1 fill s : length (Pd.shift1 fill s) = length s.
Proof.
  destruct s as [|x s]; [reflexivity|].
  unfold Pd.shift1. cbn [length]. f_equal.
  revert x. induction s as [|y s IH]; intros x; [reflexivity|].
  change (removelast (x :: y :: s)) with (x :: removelast (y :: s)).
  cbn [length]. f_equal. apply IH.
Qed.

Lemma length_sub a b : length a = length b -> length (Pd.sub a b) = length a.
Proof.
  revert b. induction a as [|x a IH]; intros [|y b] H; simpl in *; try congruence.
  f_equal. apply IH. congruence.
Qed.

Lemma length_clip_lower lo s : length (Pd.clip_lower lo s) = length s.
Proof. apply length_map. Qed.

Lemma length_round2 s : length (Pd.round2 s) = length s.
Proof. apply length_map. Qed.

Lemma length_range1 stop : length (range1 stop) = Z.to_nat (stop - 1).
Proof. unfold range1. rewrite length_map, length_seq. reflexivity. Qed.

Lemma length_to_records month payment principal interest balance :
  length payment = length month -> length principal = length month ->
  length interest = length month -> length balance = length month ->
  length (to_records month payment principal interest balance) = length month.
Proof.
  revert payment principal interest balance.
  induction month as [|m month IH];
    intros [|p payment] [|c principal] [|i interest] [|b balance];
    simpl; intros; try congruence.
  f_equal. apply IH; congruence.
Qed.

Lemma to_records_In row month payment principal interest balance :
  In row (to_records month payment principal interest balance) ->
  In (Month row) month /\ In (Payment row) payment /\ In (Principal row) principal
  /\ In (Interest row) interest /\ In (Balance row) balance.
Proof.
  revert payment principal interest balance.
  induction month as [|m month IH];
    intros [|p payment] [|c principal] [|i interest] [|b balance];
    simpl; try tauto.
  intros [<- | H]; simpl; [tauto|].
  destruct (IH _ _ _ _ H) as (? & ? & ? & ? & ?). tauto.
Qed.

Lemma In_broadcast n x y : In y (Pd.broadcast n x) -> y = x.
Proof. intros H. exact (repeat_spec _ _ _ H). Qed.

Lemma clip_lower_In lo s x : In x (Pd.clip_lower lo s) -> lo <= x.
Proof.
  unfold Pd.clip_lower. rewrite in_map_iff. intros (y & <- & _).
  destruct (Py.ltb y lo) eqn:E; [apply Qle_refl|].
  apply ltb_false in E. exact E.
Qed.

(** Row by row.  Positions count from 0, months from 1. *)

Lemma lookup_broadcast n x (i : nat) y :
  Pd.broadcast n x !! i = Some y -> y = x.
Proof.
  intros H. apply In_broadcast with (n := n).
  apply list_elem_of_In. eapply list_elem_of_lookup_2. exact H.
Qed.

Lemma shift1_broadcast n x : Pd.shift1 x (Pd.broadcast n x) = Pd.broadcast n x.
Proof.
  destruct n as [|n]; [reflexivity|].
  unfold Pd.shift1, Pd.broadcast. cbn [repeat]. f_equal.
  induction n as [|n IH]; [reflexivity|].
  change (removelast (x :: repeat x (S n))) with (x :: removelast (repeat x (S n))).
  cbn [repeat] in *. f_equal. exact IH.
Qed.

Lemma lookup_cumsum_from acc c n (i : nat) v :
  Pd.cumsum_from acc (Pd.broadcast n c) !! i = Some v ->
  v == acc + inject_Z (Z.of_nat i + 1) * c.
Proof.
  revert acc i v. induction n as [|n IH]; intros acc i v H; [discriminate|].
  destruct i as [|i]; cbn in H.
  - injection H as <-. change (inject_Z (Z.of_nat 0 + 1)) with 1. ring.
  - apply IH in H. rewrite H.
    replace (Z.of_nat (S i) + 1)%Z with ((Z.of_nat i + 1) + 1)%Z by lia.
    rewrite (inject_Z_plus (Z.of_nat i + 1) 1). change (inject_Z 1) with 1. ring.
Qed.

Lemma lookup_cumsum c n (i : nat) v :
  Pd.cumsum (Pd.broadcast n c) !! i = Some v ->
  v == inject_Z (Z.of_nat i + 1) * c.
Proof.
  destruct n as [|n]; [discriminate|].
  destruct i as [|i]; cbn.
  - intros H. injection H as <-. change (inject_Z (Z.of_nat 0 + 1)) with 1. ring.
  - intros H. apply lookup_cumsum_from in H. rewrite H.
    replace (Z.of_nat (S i) + 1)%Z with ((Z.of_nat i + 1) + 1)%Z by lia.
    rewrite (inject_Z_plus (Z.of_nat i + 1) 1). change (inject_Z 1) with 1. ring.
Qed.

Lemma lookup_sub a b (i : nat) v :
  Pd.sub a b !! i = Some v ->
  exists x y, a !! i = Some x /\ b !! i = Some y /\ v = x - y.
Proof.
  revert b i. induction a as [|x a IH]; intros [|y b] i H; try discriminate.
  destruct i as [|i]; cbn in H.
  - injection H as <-. eauto.
  - apply IH in H. exact H.
Qed.

Lemma lookup_to_records month payment principal interest balance (i : nat) row :
  to_records month payment principal interest balance !! i = Some row ->
  month !! i = Some (Month row) /\ payment !! i = Some (Payment row)
  /\ principal !! i = Some (Principal row) /\ interest !! i = Some (Interest row)
  /\ balance !! i = Some (Balance row).
Proof.
  revert payment principal interest balance i.
  induction month as [|m month IH];
    intros [|p payment] [|c principal] [|r interest] [|b balance] i H;
    try discriminate.
  destruct i as [|i]; cbn in H.
  - injection H as <-. cbn. tauto.
  - apply IH in H. exact H.
Qed.

Lemma lookup_map {A B} (f : A -> B) (l : list A) (i : nat) :
  map f l !! i = f <$> (l !! i).
Proof.
  revert i. induction l as [|x l IH]; intros [|i]; cbn; auto.
Qed.

Lemma lookup_range1 stop (i : nat) m :
  range1 stop !! i = Some m -> m = (Z.of_nat i + 1)%Z.
Proof.
  unfold range1. rewrite lookup_map.
  destruct (seq 1 (Z.to_nat (stop - 1)) !! i) as [k|] eqn:E; [|discriminate].
  apply lookup_seq in E. destruct E as [-> _].
  cbn. intros H. injection H as <-. lia.
Qed.

(** The cell of [clip(lower=0)], as a function of the value. *)
Lemma clip_cell_comp (x y : Q) :
  x == y -> (if Py.ltb x 0 then 0 else x) == (if Py.ltb y 0 then 0 else y).
Proof.
  intros E. unfold Py.ltb.
  rewrite (Qleb_comp 0 0 (Qeq_refl 0) x y E).
  destruct (negb _); [reflexivity | exact E].
Qed.

End Columns.

(** ** The amortization schedule *)

Section Schedule.

Variables (principal rate : Q) (term_months : Z).

Lemma schedule_unfold rows :
  generate_amortization_schedule principal rate term_months = Py.Ok rows ->
  exists payment,
    Py.div (principal * (rate / 100 / 12 * (1 + rate / 100 / 12) ^ term_months))
           ((1 + rate / 100 / 12) ^ term_months - 1) = Py.Ok payment
    /\ rows = schedule_of_payment principal (rate / 100 / 12) (Py.round2 payment) term_months.
Proof.
  unfold generate_amortization_schedule.
  unfold Py.pow_int.
  destruct (Qeq_bool (1 + rate / 100 / 12) 0 && (term_months <? 0)%Z);
    [discriminate|].
  unfold mbind, Py.result_bind.
  destruct (Py.div _ _) as [payment|e] eqn:Hdiv; [|discriminate].
  intros H. injection H as <-. exists payment. split; [reflexivity|].
  unfold schedule_of_payment.
  rewrite mul_scalar_broadcast, sub_broadcast, !round2_broadcast. reflexivity.
Qed.

Lemma schedule_raises_zero_division e :
  generate_amortization_schedule principal rate term_months = Py.Raise e ->
  e = Py.ZeroDivisionError.
Proof.
  unfold generate_amortization_schedule.
  unfold Py.pow_int.
  destruct (Qeq_bool (1 + rate / 100 / 12) 0 && (term_months <? 0)%Z).
  { intros H. injection H as <-. reflexivity. }
  unfold mbind, Py.result_bind, Py.div.
  destruct (Qeq_bool _ 0); [|discriminate].
  intros H. injection H as <-. reflexivity.
Qed.

Lemma schedule_length rows :
  generate_amortization_schedule principal rate term_months = Py.Ok rows ->
  length rows = Z.to_nat term_months.
Proof.
  intros H. destruct (schedule_unfold rows H) as (payment & _ & ->).
  unfold schedule_of_payment.
  rewrite length_to_records.
  - rewrite length_range1. f_equal. lia.
  - apply length_broadcast.
  - apply length_broadcast.
  - apply length_broadcast.
  - rewrite length_round2, length_clip_lower, length_sub;
      rewrite length_shift1, ?length_cumsum, !length_broadcast; reflexivity.
Qed.

(** Every row charges interest on the original principal. *)
Lemma schedule_interest_constant rows row :
  generate_amortization_schedule principal rate term_months = Py.Ok rows ->
  In row rows ->
  Interest row = Py.round2 (principal * (rate / 100 / 12)).
Proof.
  intros H Hin. destruct (schedule_unfold rows H) as (payment & _ & ->).
  apply to_records_In in Hin. destruct Hin as (_ & _ & _ & Hi & _).
  exact (In_broadcast _ _ _ Hi).
Qed.

Lemma schedule_balance_nonneg rows row :
  generate_amortization_schedule principal rate term_months = Py.Ok rows ->
  In row rows ->
  0 <= Balance row.
Proof.
  intros H Hin. destruct (schedule_unfold rows H) as (payment & _ & ->).
  apply to_records_In in Hin. destruct Hin as (_ & _ & _ & _ & Hb).
  unfold Pd.round2 in Hb. apply in_map_iff in Hb. destruct Hb as (x & <- & Hx).
  apply round2_nonneg. exact (clip_lower_In _ _ _ Hx).
Qed.

(** Row [i + 1] of the schedule, field by field: the payment, the interest
    on the original principal and their difference are the same in every
    row, and the balance is the principal less [i + 1] times that
    difference, never below 0. *)
Lemma schedule_row rows (i : nat) row :
  generate_amortization_schedule principal rate term_months = Py.Ok rows ->
  rows !! i = Some row ->
  exists payment,
    Py.div (principal * (rate / 100 / 12 * (1 + rate / 100 / 12) ^ term_months))
           ((1 + rate / 100 / 12) ^ term_months - 1) = Py.Ok payment
    /\ Month row = (Z.of_nat i + 1)%Z
    /\ Payment row = Py.round2 (Py.round2 payment)
    /\ Principal row = Py.round2 (Py.round2 payment - principal * (rate / 100 / 12))
    /\ Interest row = Py.round2 (principal * (rate / 100 / 12))
    /\ Balance row
       = Py.round2
           (let balance :=
              principal - inject_Z (Z.of_nat i + 1)
                          * (Py.round2 payment - principal * (rate / 100 / 12)) in
            if Py.ltb balance 0 then 0 else balance).
Proof.
  intros H Hrow. destruct (schedule_unfold rows H) as (payment & Hpay & ->).
  exists payment. split; [exact Hpay|].
  unfold schedule_of_payment in Hrow.
  apply lookup_to_records in Hrow.
  destruct Hrow as (Hm & Hp & Hc & Hi & Hb).
  split; [exact (lookup_range1 _ _ _ Hm)|].
  split; [exact (lookup_broadcast _ _ _ _ Hp)|].
  split; [exact (lookup_broadcast _ _ _ _ Hc)|].
  split; [exact (lookup_broadcast _ _ _ _ Hi)|].
  unfold Pd.round2, Pd.clip_lower in Hb. rewrite !lookup_map in Hb.
  rewrite shift1_broadcast in Hb.
  destruct (Pd.sub _ _ !! i) as [v|] eqn:Hv; [|discriminate].
  cbn in Hb. injection Hb as <-.
  apply lookup_sub in Hv. destruct Hv as (x & y & Hx & Hy & ->).
  apply lookup_broadcast in Hx. subst x.
  apply lookup_cumsum in Hy.
  apply round2_comp, clip_cell_comp. rewrite Hy. reflexivity.
Qed.


Lemma schedule_ok :
  0 < rate -> term_months <> 0%Z ->
  exists rows, generate_amortization_schedule principal rate term_months = Py.Ok rows.
Proof.
  intros Hr Hk.
  assert (Hm : rate / 100 / 12 == rate * (1 # 1200)) by field.
  assert (Hbase : 1 < 1 + rate / 100 / 12) by (rewrite Hm; lra).
  assert (Hgrowth : ~ (1 + rate / 100 / 12) ^ term_months - 1 == 0).
  { intros E.
    destruct (Z.lt_trichotomy term_months 0) as [Hneg | [H0 | Hpos]].
    - pose proof (Qpower_lt_compat_l _ _ _ Hneg Hbase) as Hlt.
      change ((1 + rate / 100 / 12) ^ 0) with 1 in Hlt.
      revert E Hlt. generalize ((1 + rate / 100 / 12) ^ term_months). intros; lra.
    - contradiction.
    - pose proof (Qpower_1_lt _ _ Hbase Hpos) as Hlt.
      revert E Hlt. generalize ((1 + rate / 100 / 12) ^ term_months). intros; lra. }
  unfold generate_amortization_schedule.
  unfold Py.pow_int.
  assert (Hnz : Qeq_bool (1 + rate / 100 / 12) 0 = false).
  { apply Qeq_bool_false. lra. }
  rewrite Hnz. cbn [andb]. unfold mbind, Py.result_bind, Py.div.
  assert (Hd : Qeq_bool ((1 + rate / 100 / 12) ^ term_months - 1) 0 = false).
  { apply Qeq_bool_false. exact Hgrowth. }
  rewrite Hd. eexists. reflexivity.
Qed.

End Schedule.

(** ** The loan figures of step 5 *)



(** The scenario of the specification: 4000 a month, an advance of 1500. *)
Lemma scenario_1500 :
  calculate_advance (request_of 4000 "Monthly" 1500 None) example_uuid example_now ∅
  = (Returned (approved_response (request_of 4000 "Monthly" 1500 None)
                 example_uuid 4000 (None, None)),
     <[example_uuid := approved_record (request_of 4000 "Monthly" 1500 None)
                         example_uuid example_now (None, None)]> ∅).
Proof.
  apply calculate_advance_approved; [reflexivity | | | reflexivity];
    unfold Qle; simpl; lia.
Qed.

(** ** The record store (C1) *)

(** C1, as amended.  For every request that is approved (monthly salary at
    least 1000 and advance within the cap) and whose loan computations
    raise nothing, exactly one LoanRecord is inserted: it is stored under
    the generated identifier, holds that identifier, the timestamp, the
    request fields and the loan figures of the response, can be read back
    with [get_loan], leaves every other key as it was and, the identifier
    being fresh, makes the store one record larger; the response's
    [loan_id] is that identifier.  For an ineligible or over-cap request
    the store is left unchanged and the response has no [loan_id]. *)
Theorem C1_record_on_approval request uuid4 now (loans_db : gmap string LoanRecord)
    monthly_salary :
  convert_to_monthly_salary (gross_salary request) (pay_frequency request)
  = Py.Ok monthly_salary ->
  (1000 <= monthly_salary ->
   advance_amount request <= monthly_salary * 0.5 ->
   forall figures, loan_figures request = Py.Ok figures ->
     record_inserted request uuid4 now loans_db
     /\ (forall record,
           get_loan uuid4 (<[uuid4 := record]> loans_db) = Returned record
           /\ (forall key, key <> uuid4 ->
                 (<[uuid4 := record]> loans_db) !! key = loans_db !! key)
           /\ (loans_db !! uuid4 = None ->
                 size (<[uuid4 := record]> loans_db) = S (size loans_db))))
  /\ (monthly_salary < 1000 \/ monthly_salary * 0.5 < advance_amount request ->
      exists response,
        calculate_advance request uuid4 now loans_db = (Returned response, loans_db)
        /\ loan_id response = None).
Proof.
  intros Hms. split.
  - intros Hok Hcap figures Hfig. split.
    + exists (approved_response request uuid4 monthly_salary figures),
             (approved_record request uuid4 now figures).
      split; [exact (calculate_advance_approved _ _ _ _ _ Hms figures Hok Hcap Hfig)|].
      unfold snapshot_of. cbn. tauto.
    + intros record. split; [|split].
      * unfold get_loan. rewrite lookup_insert_eq. reflexivity.
      * intros key Hne. apply lookup_insert_ne. congruence.
      * intros Hfresh. apply map_size_insert_None. exact Hfresh.
  - intros Hrej.
    destruct (Qlt_le_dec monthly_salary 1000) as [Hlow|Hok].
    + eexists. split; [exact (calculate_advance_ineligible _ _ _ _ _ Hms Hlow)|].
      reflexivity.
    + destruct Hrej as [Hlow|Hcap]; [exfalso; exact (Qlt_not_le _ _ Hlow Hok)|].
      eexists. split; [exact (calculate_advance_over_cap _ _ _ _ _ Hms Hok Hcap)|].
      reflexivity.
Qed.

Lemma C1_witness :
  record_inserted (request_of 4000 "Monthly" 1500 None) example_uuid example_now ∅.
Proof.
  refine (proj1 (proj1 (C1_record_on_approval
    (request_of 4000 "Monthly" 1500 None)
    example_uuid example_now ∅ 4000 _)
    _ _ (None, None) _)).
  - reflexivity.
  - unfold Qle; simpl; lia.
  - unfold Qle; simpl; lia.
  - reflexivity.
Defined.

(** C1, as stated, fails on the ineligible branch: a request with a monthly
    salary of 500 is answered without a [loan_id], and the store stays
    empty. *)
Lemma C1_counterexample :
  (exists response,
     calculate_advance (request_of 500 "Monthly" 100 None)
       example_uuid example_now ∅
     = (Returned response, ∅)
     /\ loan_id response = None)
  /\ ~ record_inserted (request_of 500 "Monthly" 100 None)
         example_uuid example_now ∅.
Proof.
  assert (Hlow : 500 < 1000) by reflexivity.
  pose proof (calculate_advance_ineligible (request_of 500 "Monthly" 100 None)
    example_uuid example_now ∅ 500
    eq_refl Hlow) as Hrun.
  split.
  - eexists. split; [exact Hrun|reflexivity].
  - intros (response & record & Hret & Hid & _).
    rewrite Hrun in Hret. injection Hret as <- _. discriminate Hid.
Qed.

(** ** The evaluator (C5, C6) *)

(** C5, as amended.  For every outcome returned by [calculate_advance],
    with [monthly_salary] the normalizer's conversion of the request: on an
    eligible outcome [max_advance] is [monthly_salary * 0.5], which is
    [max(0, monthly_salary * 0.5)]; on an ineligible outcome
    ([monthly_salary < 1000]) [max_advance] is 0. *)
Theorem C5_max_advance request uuid4 now (loans_db loans_db' : gmap string LoanRecord)
    response :
  calculate_advance request uuid4 now loans_db = (Returned response, loans_db') ->
  exists monthly_salary,
    convert_to_monthly_salary (gross_salary request) (pay_frequency request)
    = Py.Ok monthly_salary
    /\ (eligible response = true ->
        1000 <= monthly_salary
        /\ max_advance response = monthly_salary * 0.5
        /\ max_advance response = Py.max 0 (monthly_salary * 0.5))
    /\ (eligible response = false ->
        monthly_salary < 1000 /\ max_advance response = 0).
Proof.
  intros Hret.
  assert (Hmax : forall ms, 1000 <= ms -> Py.max 0 (ms * 0.5) = ms * 0.5).
  { intros ms Hok. unfold Py.max.
    assert (H : Py.gtb (ms * 0.5) 0 = true) by (apply gtb_true; lra).
    rewrite H. reflexivity. }
  pose proof Hret as Hret'.
  apply calculate_advance_returned in Hret'.
  destruct Hret' as (ms & Hms & Hcases). exists ms. split; [exact Hms|].
  destruct Hcases as [(Hlow & He & _ & _) | [(Hok & Hcap & He & _ & _) | (Hok & Hcap & figures & _ & -> & _)]].
  - rewrite (calculate_advance_ineligible _ _ _ _ _ Hms Hlow) in Hret.
    injection Hret as <- _. cbn. split; [discriminate|auto].
  - rewrite (calculate_advance_over_cap _ _ _ _ _ Hms Hok Hcap) in Hret.
    injection Hret as <- _. cbn. split; [|discriminate].
    intros _. rewrite (Hmax ms Hok). auto.
  - cbn. split; [|discriminate].
    intros _. rewrite (Hmax ms Hok). auto.
Qed.

Lemma C5_witness :
  exists monthly_salary,
    convert_to_monthly_salary 4000 "Monthly" = Py.Ok monthly_salary
    /\ 1000 <= monthly_salary
    /\ max_advance (approved_response (request_of 4000 "Monthly" 1500 None)
                      example_uuid 4000 (None, None))
       = Py.max 0 (monthly_salary * 0.5).
Proof.
  destruct (C5_max_advance _ _ _ _ _ _ scenario_1500) as (ms & Hms & He & _).
  exists ms. split; [exact Hms|].
  destruct (He eq_refl) as (Hok & _ & Hmax). split; [exact Hok | exact Hmax].
Defined.

(** C5, as stated, fails on the ineligible branch: with a monthly salary of
    500 the outcome has [max_advance = 0], not [max(0, 500 * 0.5) = 250]. *)
Lemma C5_counterexample :
  exists response,
    calculate_advance (request_of 500 "Monthly" 100 None)
      example_uuid example_now ∅
    = (Returned response, ∅)
    /\ convert_to_monthly_salary 500 "Monthly" = Py.Ok 500
    /\ max_advance response = 0
    /\ Py.max 0 (500 * 0.5) == 250
    /\ ~ max_advance response == Py.max 0 (500 * 0.5).
Proof.
  eexists. split.
  - exact (calculate_advance_ineligible (request_of 500 "Monthly" 100 None)
             example_uuid example_now ∅ 500
             eq_refl eq_refl).
  - cbn [max_advance]. repeat split; discriminate.
Qed.

(** C6, as amended.  For every outcome returned by [calculate_advance]: a
    rejected outcome (no [loan_id]: ineligible, or advance above the cap)
    has [approved_amount = 0] and [fee = 0]; an approved outcome has
    [approved_amount] equal to the requested advance and
    [10 <= fee <= 50].  So when [approved_amount] is 0 the fee is 0, except
    on an approved advance of 0, whose fee is the minimum 10. *)
Theorem C6_fee_zero_on_rejection request uuid4 now
    (loans_db loans_db' : gmap string LoanRecord) response :
  calculate_advance request uuid4 now loans_db = (Returned response, loans_db') ->
  (loan_id response = None -> approved_amount response = 0 /\ fee response = 0)
  /\ (loan_id response <> None ->
      approved_amount response = advance_amount request
      /\ 10 <= fee response /\ fee response <= 50)
  /\ (approved_amount response == 0 ->
      fee response = 0 \/ (advance_amount request == 0 /\ fee response = 10)).
Proof.
  intros Hret. pose proof Hret as Hret'.
  apply calculate_advance_returned in Hret'.
  destruct Hret' as (ms & Hms & Hcases).
  destruct Hcases as [(Hlow & _) | [(Hok & Hcap & _) | (Hok & Hcap & figures & _ & -> & _)]].
  - rewrite (calculate_advance_ineligible _ _ _ _ _ Hms Hlow) in Hret.
    injection Hret as <- _. cbn. split; [auto|]. split; [congruence|auto].
  - rewrite (calculate_advance_over_cap _ _ _ _ _ Hms Hok Hcap) in Hret.
    injection Hret as <- _. cbn. split; [auto|]. split; [congruence|auto].
  - cbn. split; [discriminate|]. split.
    + intros _. split; [reflexivity|]. apply fee_band.
    + intros Hzero. right. split; [exact Hzero|].
      unfold Py.max, Py.min.
      assert (H1 : Py.ltb (advance_amount request * 0.05) 50 = true)
        by (apply ltb_true; lra).
      rewrite H1.
      assert (H2 : Py.gtb (advance_amount request * 0.05) 10 = false)
        by (apply gtb_false; lra).
      rewrite H2. reflexivity.
Qed.

Lemma C6_witness :
  approved_amount (approved_response (request_of 4000 "Monthly" 1500 None)
                     example_uuid 4000 (None, None)) = 1500
  /\ 10 <= fee (approved_response (request_of 4000 "Monthly" 1500 None)
                  example_uuid 4000 (None, None)) <= 50.
Proof.
  destruct (C6_fee_zero_on_rejection _ _ _ _ _ _ scenario_1500) as (_ & Happ & _).
  apply Happ. discriminate.
Defined.

(** C6, as stated, fails on an eligible request with an advance of 0: it is
    approved at 0 and charged the minimum fee of 10. *)
Lemma C6_counterexample :
  exists response loans_db',
    calculate_advance (request_of 4000 "Monthly" 0 None)
      example_uuid example_now ∅
    = (Returned response, loans_db')
    /\ eligible response = true
    /\ approved_amount response = 0
    /\ fee response = 10
    /\ ~ fee response == 0.
Proof.
  eexists. eexists. split.
  - exact (calculate_advance_approved (request_of 4000 "Monthly" 0 None)
             example_uuid example_now ∅ 4000
             eq_refl (None, None)
             ltac:(unfold Qle; simpl; lia) ltac:(unfold Qle; simpl; lia) eq_refl).
  - cbn [eligible approved_amount fee approved_response].
    repeat split; discriminate.
Qed.

(** The two fees of the specification's scenarios: an advance of 1500 is
    charged 50, an advance of 100 is charged 10. *)
Example fee_of_1500 :
  fee (approved_response (request_of 4000 "Monthly" 1500 None)
         example_uuid 4000 (None, None)) = 50.
Proof. reflexivity. Qed.

Example fee_of_100 :
  exists response loans_db',
    calculate_advance (request_of 4000 "Monthly" 100 None) example_uuid example_now ∅
    = (Returned response, loans_db')
    /\ max_advance response == 2000 /\ approved_amount response = 100
    /\ fee response = 10.
Proof.
  eexists. eexists. split.
  - apply calculate_advance_approved with (monthly_salary := 4000) (figures := (None, None));
      [reflexivity | | | reflexivity]; unfold Qle; simpl; lia.
  - cbn. repeat split.
Qed.

(** The weekly scenario: 500 a week is 2166.67 a month, which is eligible. *)
Example weekly_500 :
  convert_to_monthly_salary 500 "Weekly" = Py.Ok (500 * 52 / 12)
  /\ Py.round2 (500 * 52 / 12) = 2166.67
  /\ Py.geb (500 * 52 / 12) 1000 = true.
Proof. repeat split. Qed.

(** ** Total repayable in the response (C4) *)




(** ** Total repayable (C8) *)




(** ** Parameter checks of the amortizer (C9) *)

(** C9, as amended.  The amortizer validates nothing and has no named
    failure.  For a rate between 0.01 and 100 percent:
    [calculate_compound_interest] returns a value for every term between
    -1200 and 1200 months, zero and negative ones included, namely the
    direct formula at that term, which at term 0 is the principal rounded
    to 2 decimals; [generate_amortization_schedule] returns [term_months]
    rows for every principal, zero and negative ones included, when the
    term is between 1 and 1200 months.  So neither operation fails when
    the principal is positive and rate and term are within these bounds. *)
Theorem C9_no_validation principal rate term_months :
  0.01 <= rate -> rate <= 100 -> (1 <= term_months <= 1200)%Z ->
  (exists rows,
     generate_amortization_schedule principal rate term_months = Py.Ok rows
     /\ length rows = Z.to_nat term_months)
  /\ (forall term, (-1200 <= term <= 1200)%Z ->
        calculate_compound_interest principal rate term
        = Py.round2 (principal * (1 + rate / 100 / 12) ^ term))
  /\ calculate_compound_interest principal rate 0 = Py.round2 principal.
Proof.
  intros Hlo Hhi Hterm. split; [|split].
  - assert (Hrate : 0 < rate).
    { apply Qlt_le_trans with (y := 0.01); [reflexivity | exact Hlo]. }
    assert (Hnz : term_months <> 0%Z) by lia.
    destruct (schedule_ok principal rate term_months Hrate Hnz) as [rows Hrows].
    exists rows. split; [exact Hrows|].
    exact (schedule_length _ _ _ _ Hrows).
  - intros term _. apply compound_interest_closed_form.
  - apply compound_interest_zero_term.
Qed.

Lemma C9_witness :
  exists rows,
    generate_amortization_schedule (-1000) 5 12 = Py.Ok rows
    /\ length rows = Z.to_nat 12.
Proof.
  refine (proj1 (C9_no_validation (-1000) 5 12 _ _ _)).
  - unfold Qle; simpl; lia.
  - unfold Qle; simpl; lia.
  - lia.
Defined.

(** C9, as stated, fails: a term of 0 gives a total (the principal) instead
    of a failure, and a negative principal gives a schedule of 12 rows
    instead of a failure. *)
Lemma C9_counterexample :
  calculate_compound_interest 1000 5 0 = 1000.00
  /\ calculate_compound_interest 1000 5 (-12) = 951.33
  /\ exists rows,
       generate_amortization_schedule (-1000) 5 12 = Py.Ok rows
       /\ length rows = 12%nat.
Proof.
  split; [reflexivity|]. split; [reflexivity|].
  eexists. split; [vm_compute; reflexivity|reflexivity].
Qed.

(** ** The rows of the schedule (C2, C3) *)

(** C2 at the input 1200 at 12% over 2 months (monthly rate 0.01, payment
    609.01).  The balance before the second payment is 602.99, whose
    interest is 6.03; the second row of the source charges 12.00, the
    interest on the original principal, as every row does. *)
Theorem C2_interest_on_original_principal :
  generate_amortization_schedule 1200 12 2
  = Py.Ok [ {| Month := 1; Payment := 609.01; Principal := 597.01;
               Interest := 12.00; Balance := 602.99 |};
            {| Month := 2; Payment := 609.01; Principal := 597.01;
               Interest := 12.00; Balance := 5.98 |} ]
  /\ Py.round2 (602.99 * (12 / 100 / 12)) = 6.03
  /\ Py.round2 (609.01 - 602.99 * (12 / 100 / 12)) = 602.98
  /\ (forall principal rate term_months rows row,
        generate_amortization_schedule principal rate term_months = Py.Ok rows ->
        In row rows ->
        Interest row = Py.round2 (principal * (rate / 100 / 12))).
Proof.
  split; [vm_compute; reflexivity|]. split; [reflexivity|]. split; [reflexivity|].
  exact schedule_interest_constant.
Qed.

(** C3 at the input 10000 at 5% over 12 months: the twelve principal parts
    add up to 9772.80, 227.20 short of the principal, and the last row
    keeps a balance of 227.16.  The balance of a row is never negative. *)
Theorem C3_schedule_does_not_amortize :
  (exists rows,
     generate_amortization_schedule 10000 5 12 = Py.Ok rows
     /\ length rows = 12%nat
     /\ Balance <$> last rows = Some 227.16
     /\ sum_principal rows == 9772.80
     /\ 10000 - sum_principal rows == 227.20)
  /\ (forall principal rate term_months rows row,
        generate_amortization_schedule principal rate term_months = Py.Ok rows ->
        In row rows ->
        0 <= Balance row).
Proof.
  split; [|exact schedule_balance_nonneg].
  eexists. split; [vm_compute; reflexivity|].
  repeat split.
Qed.

(** * Further properties of the code *)

(** ** The store across calls *)

(** Every call either leaves the store as it was or writes one record
    under its own identifier, and it carries an identifier in its answer
    exactly when it writes. *)
Lemma calculate_advance_store request uuid4 now (loans_db : gmap string LoanRecord) :
  (answered_id (fst (calculate_advance request uuid4 now loans_db)) = None
   /\ snd (calculate_advance request uuid4 now loans_db) = loans_db)
  \/ (answered_id (fst (calculate_advance request uuid4 now loans_db)) = Some uuid4
      /\ exists figures,
           snd (calculate_advance request uuid4 now loans_db)
           = <[uuid4 := approved_record request uuid4 now figures]> loans_db).
Proof.
  destruct (calculate_advance request uuid4 now loans_db) as [answer loans_db'] eqn:Hrun.
  destruct answer as [response | status detail].
  - destruct (calculate_advance_returned _ _ _ _ _ _ Hrun) as (ms & Hms & Hcases).
    destruct Hcases as [(_ & _ & Hid & ->) | [(_ & _ & _ & Hid & ->) | (_ & _ & figures & _ & -> & ->)]].
    + left. split; [exact Hid | reflexivity].
    + left. split; [exact Hid | reflexivity].
    + right. split; [reflexivity|]. exists figures. reflexivity.
  - left. split; [reflexivity|]. cbn.
    unfold calculate_advance in Hrun.
    destruct (calculate_advance_body request uuid4 now loans_db) as [[r d] | [msg|]];
      [discriminate Hrun | | ]; injection Hrun as _ _ <-; reflexivity.
Qed.

Lemma calculate_advance_frame request uuid4 now (loans_db : gmap string LoanRecord) key :
  key <> uuid4 ->
  snd (calculate_advance request uuid4 now loans_db) !! key = loans_db !! key.
Proof.
  intros Hne.
  destruct (calculate_advance_store request uuid4 now loans_db)
    as [(_ & ->) | (_ & figures & ->)]; [reflexivity|].
  apply lookup_insert_ne. congruence.
Qed.

(** X1.  Whatever the request and the outcome, a call leaves the records
    stored under every other identifier as they were, and removes no
    identifier from the store. *)
Theorem X1_store_frame request uuid4 now (loans_db : gmap string LoanRecord) :
  (forall key, key <> uuid4 ->
     snd (calculate_advance request uuid4 now loans_db) !! key = loans_db !! key)
  /\ (forall key, is_Some (loans_db !! key) ->
        is_Some (snd (calculate_advance request uuid4 now loans_db) !! key)).
Proof.
  split; [intros key; apply calculate_advance_frame|].
  destruct (calculate_advance_store request uuid4 now loans_db)
    as [(_ & ->) | (_ & figures & ->)]; [auto|].
  intros key Hsome. destruct (decide (key = uuid4)) as [-> | Hne].
  - rewrite lookup_insert_eq. eauto.
  - rewrite lookup_insert_ne by congruence. exact Hsome.
Qed.

(** X2.  Served from a store that holds none of the identifiers drawn, and
    with no identifier drawn twice, a sequence of calls keeps every record
    the store held, adds exactly one record per answer that carries an
    identifier, and leaves each of these records readable with [get_loan]
    at the end: it holds the identifier of the answer, the timestamp of
    its call and the fields of its request. *)
Theorem X2_serve_keeps_records calls (loans_db : gmap string LoanRecord) :
  NoDup (map call_id calls) ->
  (forall call, In call calls -> loans_db !! call_id call = None) ->
  (forall key record,
     loans_db !! key = Some record ->
     snd (serve calls loans_db) !! key = Some record)
  /\ size (snd (serve calls loans_db))
     = (size loans_db + approvals (fst (serve calls loans_db)))%nat
  /\ (forall (i : nat) request uuid4 now response id,
        calls !! i = Some (request, uuid4, now) ->
        fst (serve calls loans_db) !! i = Some (Returned response) ->
        loan_id response = Some id ->
        id = uuid4
        /\ exists record,
             get_loan id (snd (serve calls loans_db)) = Returned record
             /\ rec_loan_id record = id
             /\ rec_timestamp record = now
             /\ snapshot_of record request).
Proof.
  revert loans_db.
  induction calls as [|[[request uuid4] now] calls IH]; intros loans_db Hdup Hfresh.
  { cbn. split; [auto|]. split; [lia|]. intros i ? ? ? ? ? H. destruct i; discriminate H. }
  cbn [map call_id fst snd] in Hdup. apply NoDup_cons in Hdup.
  destruct Hdup as [Hnew Hdup].
  assert (Hu : loans_db !! uuid4 = None).
  { apply (Hfresh (request, uuid4, now)). left. reflexivity. }
  cbn [serve fst snd].
  set (step := calculate_advance request uuid4 now loans_db).
  assert (Hfresh' : forall call, In call calls -> snd step !! call_id call = None).
  { intros call Hin.
    unfold step. rewrite calculate_advance_frame.
    - apply Hfresh. right. exact Hin.
    - intros E. apply Hnew, list_elem_of_In. rewrite <- E.
      apply in_map. exact Hin. }
  destruct (IH (snd step) Hdup Hfresh') as (Hkeep & Hsize & Hread).
  destruct (calculate_advance_store request uuid4 now loans_db)
    as [(Hid & Hdb) | (Hid & figures & Hdb)]; fold step in Hid, Hdb.
  - split; [|split].
    + intros key record Hkey. apply Hkeep. rewrite Hdb. exact Hkey.
    + rewrite Hsize, Hdb. cbn [approvals]. rewrite Hid. reflexivity.
    + intros [|i] request' uuid' now' response id Hcall Hanswer Hloan.
      * cbn in Hanswer. injection Hanswer as Hanswer.
        rewrite Hanswer in Hid. cbn in Hid. congruence.
      * exact (Hread i request' uuid' now' response id Hcall Hanswer Hloan).
  - split; [|split].
    + intros key record Hkey. apply Hkeep. rewrite Hdb.
      rewrite lookup_insert_ne; [exact Hkey | congruence].
    + rewrite Hsize, Hdb. cbn [approvals]. rewrite Hid.
      rewrite (map_size_insert_None _ _ _ Hu). lia.
    + intros [|i] request' uuid' now' response id Hcall Hanswer Hloan.
      * cbn in Hcall. injection Hcall as <- <- <-.
        cbn in Hanswer. injection Hanswer as Hanswer.
        rewrite Hanswer in Hid. cbn in Hid.
        assert (id = uuid4) as -> by congruence.
        split; [reflexivity|].
        exists (approved_record request uuid4 now figures).
        split; [|cbn; unfold snapshot_of; cbn; tauto].
        unfold get_loan.
        rewrite (Hkeep uuid4 (approved_record request uuid4 now figures)).
        { reflexivity. }
        rewrite Hdb. apply lookup_insert_eq.
      * exact (Hread i request' uuid' now' response id Hcall Hanswer Hloan).
Qed.

Lemma X2_witness :
  size (snd (serve [ (request_of 4000 "Monthly" 1500 None, "id-1", "t-1");
                     (request_of 500 "Monthly" 100 None, "id-2", "t-2");
                     (request_of 4000 "Monthly" 100 None, "id-3", "t-3") ] ∅))
  = (size (∅ : gmap string LoanRecord)
     + approvals (fst (serve [ (request_of 4000 "Monthly" 1500 None, "id-1", "t-1");
                               (request_of 500 "Monthly" 100 None, "id-2", "t-2");
                               (request_of 4000 "Monthly" 100 None, "id-3", "t-3") ] ∅)))%nat.
Proof.
  refine (proj1 (proj2 (X2_serve_keeps_records _ ∅ _ _))).
  - cbn [map call_id fst snd].
    repeat (apply NoDup_cons; split;
            [rewrite ?elem_of_cons, elem_of_nil; intros H; intuition discriminate|]).
    apply NoDup_nil_2.
  - intros call _. apply lookup_empty.
Defined.

(** ** Error answers *)

Lemma convert_known_ok (g : Q) (f : string) :
  known_frequency f -> exists monthly_salary, convert_to_monthly_salary g f = Py.Ok monthly_salary.
Proof. intros [-> | [-> | [-> | ->]]]; eexists; reflexivity. Qed.

Lemma loan_figures_unfold request :
  loan_figures request =
  if loan_triple_truthy request then
    match loan_amount request, interest_rate request, loan_term request with
    | Some amount, Some rate, Some term =>
        if Py.truthy_bool (include_amortization request) then
          match generate_amortization_schedule amount rate term with
          | Py.Ok schedule =>
              Py.Ok (Some (calculate_compound_interest amount rate term), Some schedule)
          | Py.Raise e => Py.Raise e
          end
        else Py.Ok (Some (calculate_compound_interest amount rate term), None)
    | _, _, _ => Py.Ok (None, None)
    end
  else Py.Ok (None, None).
Proof.
  unfold loan_figures, loan_triple_truthy.
  destruct (loan_amount request) as [amount|]; [|reflexivity].
  destruct (interest_rate request) as [rate|];
    [|destruct (Py.truthy_float (Some amount)); reflexivity].
  destruct (loan_term request) as [term|];
    [|destruct (Py.truthy_float (Some amount) && Py.truthy_float (Some rate));
      reflexivity].
  destruct (Py.truthy_float (Some amount) && Py.truthy_float (Some rate)
            && Py.truthy_int (Some term)); [|reflexivity].
  destruct (Py.truthy_bool (include_amortization request)); reflexivity.
Qed.

(** The loan computations raise only when the schedule is asked for and
    its payment formula divides by zero. *)
Lemma loan_figures_raises request e :
  loan_figures request = Py.Raise e <->
  e = Py.ZeroDivisionError
  /\ loan_triple_truthy request = true
  /\ Py.truthy_bool (include_amortization request) = true
  /\ exists amount rate term,
       loan_amount request = Some amount
       /\ interest_rate request = Some rate
       /\ loan_term request = Some term
       /\ generate_amortization_schedule amount rate term
          = Py.Raise Py.ZeroDivisionError.
Proof.
  rewrite loan_figures_unfold. split.
  - destruct (loan_triple_truthy request); [|discriminate].
    destruct (loan_amount request) as [amount|]; [|discriminate].
    destruct (interest_rate request) as [rate|]; [|discriminate].
    destruct (loan_term request) as [term|]; [|discriminate].
    destruct (Py.truthy_bool (include_amortization request)); [|discriminate].
    destruct (generate_amortization_schedule amount rate term) as [rows|e'] eqn:Hgen;
      [discriminate|].
    intros H. injection H as <-.
    pose proof (schedule_raises_zero_division _ _ _ _ Hgen) as ->.
    repeat split. exists amount, rate, term. auto.
  - intros (-> & -> & -> & amount & rate & term & -> & -> & -> & ->). reflexivity.
Qed.

(** With ordinary loan fields the loan computations raise nothing. *)
Lemma ordinary_loan_figures request :
  ordinary_loan request -> exists figures, loan_figures request = Py.Ok figures.
Proof.
  intros Hord. rewrite loan_figures_unfold.
  destruct (loan_triple_truthy request) eqn:Htruthy; [|eauto].
  unfold loan_triple_truthy in Htruthy.
  destruct (loan_amount request) as [amount|]; [|eauto].
  destruct (interest_rate request) as [rate|] eqn:Hr; [|eauto].
  destruct (loan_term request) as [term|] eqn:Ht; [|eauto].
  destruct (Py.truthy_bool (include_amortization request)); [|eauto].
  apply andb_true_iff in Htruthy. destruct Htruthy as [Htruthy Hterm].
  apply andb_true_iff in Htruthy. destruct Htruthy as [_ Hrate].
  unfold Py.truthy_float in Hrate. apply negb_true_iff, Qeq_bool_neq in Hrate.
  unfold Py.truthy_int in Hterm. apply negb_true_iff, Z.eqb_neq in Hterm.
  destruct (Hord rate term Hr Ht) as (_ & [E | [Hlo _]]);
    [contradiction|].
  assert (Hpos : 0 < rate).
  { apply Qlt_le_trans with (y := 0.01); [reflexivity | exact Hlo]. }
  destruct (schedule_ok amount rate term Hpos Hterm) as [rows ->]. eauto.
Qed.

Lemma ordinary_loan_answered request uuid4 now (loans_db : gmap string LoanRecord) :
  ordinary_loan request ->
  known_frequency (pay_frequency request) ->
  exists response loans_db',
    calculate_advance request uuid4 now loans_db = (Returned response, loans_db').
Proof.
  intros Hord Hk.
  destruct (convert_known_ok (gross_salary request) _ Hk) as [ms Hms].
  destruct (Qlt_le_dec ms 1000) as [Hlow|Hok].
  { eexists. eexists. exact (calculate_advance_ineligible _ _ _ _ _ Hms Hlow). }
  destruct (Qlt_le_dec (ms * 0.5) (advance_amount request)) as [Hcap|Hcap].
  { eexists. eexists. exact (calculate_advance_over_cap _ _ _ _ _ Hms Hok Hcap). }
  destruct (ordinary_loan_figures request Hord) as [figures Hfig].
  eexists. eexists.
  exact (calculate_advance_approved _ _ _ _ _ Hms figures Hok Hcap Hfig).
Qed.

(** X3.  An unknown pay frequency is always answered with status 400 and
    the detail "Invalid pay frequency", the store left as it was.  For a
    request with ordinary loan fields this is the only error answer: a
    known frequency gets a response, so the endpoint answers 400 exactly
    when the pay frequency is not one of the four known ones. *)
Theorem X3_bad_request request uuid4 now (loans_db : gmap string LoanRecord) :
  (~ known_frequency (pay_frequency request) ->
   calculate_advance request uuid4 now loans_db
   = (HTTPException 400 "Invalid pay frequency", loans_db))
  /\ (ordinary_loan request ->
      known_frequency (pay_frequency request) ->
      exists response loans_db',
        calculate_advance request uuid4 now loans_db = (Returned response, loans_db'))
  /\ (ordinary_loan request ->
      forall status detail loans_db',
        calculate_advance request uuid4 now loans_db
        = (HTTPException status detail, loans_db') ->
        status = 400%Z /\ detail = "Invalid pay frequency" /\ loans_db' = loans_db
        /\ ~ known_frequency (pay_frequency request)).
Proof.
  assert (Hunknown : ~ known_frequency (pay_frequency request) ->
    calculate_advance request uuid4 now loans_db
    = (HTTPException 400 "Invalid pay frequency", loans_db)).
  { intros Hf. unfold calculate_advance, calculate_advance_body.
    rewrite (convert_unknown _ _ Hf). reflexivity. }
  split; [exact Hunknown|]. split.
  - intros Hord Hk. exact (ordinary_loan_answered request uuid4 now loans_db Hord Hk).
  - intros Hord status detail loans_db' Herr.
    assert (Hf : ~ known_frequency (pay_frequency request)).
    { intros Hk.
      destruct (ordinary_loan_answered request uuid4 now loans_db Hord Hk)
        as (response & db & Hret).
      rewrite Hret in Herr. discriminate Herr. }
    rewrite (Hunknown Hf) in Herr. injection Herr as <- <- <-. auto.
Qed.

Lemma X3_witness :
  exists response loans_db',
    calculate_advance (request_of 4000 "Monthly" 100 (Some (10000, 5, 12%Z)))
      example_uuid example_now ∅
    = (Returned response, loans_db').
Proof.
  refine (proj1 (proj2 (X3_bad_request
    (request_of 4000 "Monthly" 100 (Some (10000, 5, 12%Z)))
    example_uuid example_now ∅)) _ _).
  - intros rate term Hr Ht. cbn in Hr, Ht.
    injection Hr as <-. injection Ht as <-.
    split; [lia|]. right. split; unfold Qle; simpl; lia.
  - right. right. left. reflexivity.
Defined.

(** X4.  Every error answer leaves the store as it was, and its status is
    400, or 500 with the detail "Internal server error".  A 500 is given
    only to a request that is approved (monthly salary at least 1000,
    advance within the cap) and whose loan amount, interest rate and loan
    term are all true values; it is given whenever such a request asks for
    the schedule and the payment formula divides by zero. *)
Theorem X4_internal_error request uuid4 now (loans_db : gmap string LoanRecord) :
  (forall status detail loans_db',
     calculate_advance request uuid4 now loans_db
     = (HTTPException status detail, loans_db') ->
     loans_db' = loans_db
     /\ (status = 400%Z
         \/ (status = 500%Z /\ detail = "Internal server error")))
  /\ (forall detail loans_db',
        calculate_advance request uuid4 now loans_db
        = (HTTPException 500 detail, loans_db') ->
        exists monthly_salary,
          convert_to_monthly_salary (gross_salary request) (pay_frequency request)
          = Py.Ok monthly_salary
          /\ 1000 <= monthly_salary
          /\ advance_amount request <= monthly_salary * 0.5
          /\ loan_triple_truthy request = true)
  /\ (forall monthly_salary amount rate term,
        convert_to_monthly_salary (gross_salary request) (pay_frequency request)
        = Py.Ok monthly_salary ->
        1000 <= monthly_salary ->
        advance_amount request <= monthly_salary * 0.5 ->
        loan_triple_truthy request = true ->
        Py.truthy_bool (include_amortization request) = true ->
        loan_amount request = Some amount ->
        interest_rate request = Some rate ->
        loan_term request = Some term ->
        generate_amortization_schedule amount rate term
        = Py.Raise Py.ZeroDivisionError ->
        calculate_advance request uuid4 now loans_db
        = (HTTPException 500 "Internal server error", loans_db)).
Proof.
  split; [|split].
  - intros status detail loans_db' H.
    unfold calculate_advance in H.
    destruct (calculate_advance_body request uuid4 now loans_db) as [[r d] | [msg|]];
      [discriminate H | |]; injection H as <- <- <-; auto.
  - intros detail loans_db' H.
    destruct (convert_to_monthly_salary (gross_salary request) (pay_frequency request))
      as [ms|e] eqn:Hms.
    2:{ rewrite (calculate_advance_invalid_frequency _ _ _ _ _ Hms) in H.
        discriminate H. }
    destruct (Qlt_le_dec ms 1000) as [Hlow|Hok].
    { rewrite (calculate_advance_ineligible _ _ _ _ _ Hms Hlow) in H. discriminate H. }
    destruct (Qlt_le_dec (ms * 0.5) (advance_amount request)) as [Hcap|Hcap].
    { rewrite (calculate_advance_over_cap _ _ _ _ _ Hms Hok Hcap) in H. discriminate H. }
    destruct (loan_figures request) as [figures|e] eqn:Hfig.
    { rewrite (calculate_advance_approved _ _ _ _ _ Hms figures Hok Hcap Hfig) in H.
      discriminate H. }
    apply loan_figures_raises in Hfig. destruct Hfig as (_ & Htriple & _).
    exists ms. auto.
  - intros ms amount rate term Hms Hok Hcap Htriple Hflag Ha Hr Ht Hgen.
    assert (Hfig : loan_figures request = Py.Raise Py.ZeroDivisionError).
    { apply loan_figures_raises. repeat split; auto. exists amount, rate, term. auto. }
    apply geb_true in Hok. apply gtb_false in Hcap.
    unfold calculate_advance, calculate_advance_body.
    rewrite Hms. unfold mbind, Py.result_bind.
    rewrite Hok. cbn [negb]. rewrite Hcap, Hfig. reflexivity.
Qed.

Lemma X4_witness :
  calculate_advance request_negative_rate example_uuid example_now ∅
  = (HTTPException 500 "Internal server error", ∅).
Proof.
  refine (proj2 (proj2 (X4_internal_error request_negative_rate
                          example_uuid example_now ∅))
            4000 10000 (-2400) 2%Z _ _ _ _ _ _ _ _ _).
  - reflexivity.
  - unfold Qle; simpl; lia.
  - unfold Qle; simpl; lia.
  - reflexivity.
  - reflexivity.
  - reflexivity.
  - reflexivity.
  - reflexivity.
  - vm_compute. reflexivity.
Defined.

(** ** The shape of an answer *)

(** X5.  In every response returned: a response without [loan_id] (a
    rejection) has neither [total_repayable] nor a schedule; a schedule
    comes only together with [total_repayable] and only when
    [include_amortization] is true; [total_repayable] comes only when loan
    amount, interest rate and loan term are all true values, and is then
    [calculate_compound_interest] of the three. *)
Theorem X5_loan_figures_in_response request uuid4 now
    (loans_db loans_db' : gmap string LoanRecord) response :
  calculate_advance request uuid4 now loans_db = (Returned response, loans_db') ->
  (loan_id response = None ->
     total_repayable response = None /\ amortization_schedule response = None)
  /\ (amortization_schedule response <> None ->
      total_repayable response <> None
      /\ Py.truthy_bool (include_amortization request) = true)
  /\ (forall total, total_repayable response = Some total ->
        loan_triple_truthy request = true
        /\ exists amount rate term,
             loan_amount request = Some amount
             /\ interest_rate request = Some rate
             /\ loan_term request = Some term
             /\ total = calculate_compound_interest amount rate term).
Proof.
  intros Hret. pose proof Hret as Hret'.
  apply calculate_advance_returned in Hret'.
  destruct Hret' as (ms & Hms & Hcases).
  destruct Hcases as [(Hlow & _) | [(Hok & Hcap & _) | (Hok & Hcap & figures & Hfig & -> & _)]].
  - rewrite (calculate_advance_ineligible _ _ _ _ _ Hms Hlow) in Hret.
    injection Hret as <- _. cbn. split; [auto|]. split; [congruence|discriminate].
  - rewrite (calculate_advance_over_cap _ _ _ _ _ Hms Hok Hcap) in Hret.
    injection Hret as <- _. cbn. split; [auto|]. split; [congruence|discriminate].
  - cbn [loan_id total_repayable amortization_schedule approved_response].
    split; [discriminate|].
    rewrite loan_figures_unfold in Hfig.
    destruct (loan_triple_truthy request); [|injection Hfig as <-; cbn; split; [congruence|discriminate]].
    destruct (loan_amount request) as [amount|];
      [|injection Hfig as <-; cbn; split; [congruence|discriminate]].
    destruct (interest_rate request) as [rate|];
      [|injection Hfig as <-; cbn; split; [congruence|discriminate]].
    destruct (loan_term request) as [term|];
      [|injection Hfig as <-; cbn; split; [congruence|discriminate]].
    destruct (Py.truthy_bool (include_amortization request)).
    + destruct (generate_amortization_schedule amount rate term) as [rows|e];
        [|discriminate Hfig].
      injection Hfig as <-. cbn. split; [split; [discriminate|reflexivity]|].
      intros total H. injection H as <-. split; [reflexivity|].
      exists amount, rate, term. auto.
    + injection Hfig as <-. cbn. split; [congruence|].
      intros total H. injection H as <-. split; [reflexivity|].
      exists amount, rate, term. auto.
Qed.

Lemma X5_witness :
  total_repayable (approved_response (request_of 4000 "Monthly" 1500 None)
                     example_uuid 4000 (None, None)) = None.
Proof.
  destruct (X5_loan_figures_in_response _ _ _ _ _ _ scenario_1500) as (_ & _ & H).
  destruct (total_repayable _) as [total|] eqn:E; [|reflexivity].
  destruct (H total eq_refl) as [Htruthy _]. discriminate Htruthy.
Defined.

(** ** Amounts *)



(** The fee of step 4 as a function of the advance. *)
Lemma fee_breakpoints (advance : Q) :
  (advance <= 200 -> Py.max 10 (Py.min 50 (advance * 0.05)) = 10)
  /\ (1000 <= advance -> Py.max 10 (Py.min 50 (advance * 0.05)) = 50)
  /\ (200 <= advance -> advance <= 1000 ->
      Py.max 10 (Py.min 50 (advance * 0.05)) == advance * 0.05).
Proof.
  unfold Py.max, Py.min. split; [|split].
  - intros H.
    assert (H1 : Py.ltb (advance * 0.05) 50 = true) by (apply ltb_true; lra).
    rewrite H1.
    assert (H2 : Py.gtb (advance * 0.05) 10 = false) by (apply gtb_false; lra).
    rewrite H2. reflexivity.
  - intros H.
    assert (H1 : Py.ltb (advance * 0.05) 50 = false) by (apply ltb_false; lra).
    rewrite H1. reflexivity.
  - intros Hlo Hhi.
    destruct (Py.ltb (advance * 0.05) 50) eqn:H1.
    + destruct (Py.gtb (advance * 0.05) 10) eqn:H2; [reflexivity|].
      apply gtb_false in H2. lra.
    + apply ltb_false in H1. replace (Py.gtb 50 10) with true by reflexivity. lra.
Qed.

Lemma fee_monotone (a b : Q) :
  a <= b ->
  Py.max 10 (Py.min 50 (a * 0.05)) <= Py.max 10 (Py.min 50 (b * 0.05)).
Proof.
  intros Hab. unfold Py.max, Py.min.
  destruct (Py.ltb (a * 0.05) 50) eqn:A1; destruct (Py.ltb (b * 0.05) 50) eqn:B1;
    try apply ltb_true in A1; try apply ltb_false in A1;
    try apply ltb_true in B1; try apply ltb_false in B1;
    repeat match goal with
           | |- context [Py.gtb ?x ?y] =>
               let E := fresh "E" in
               destruct (Py.gtb x y) eqn:E;
               [apply gtb_true in E | apply gtb_false in E]
           end; lra.
Qed.

(** X7.  On an approval the fee is 10 for an advance up to 200, 5% of the
    advance between 200 and 1000, and 50 from 1000 on; of two approvals
    the one with the larger advance has the larger or equal fee. *)
Theorem X7_fee_schedule request uuid4 now
    (loans_db loans_db' : gmap string LoanRecord) response :
  calculate_advance request uuid4 now loans_db = (Returned response, loans_db') ->
  loan_id response <> None ->
  (advance_amount request <= 200 -> fee response = 10)
  /\ (1000 <= advance_amount request -> fee response = 50)
  /\ (200 <= advance_amount request -> advance_amount request <= 1000 ->
      fee response == advance_amount request * 0.05)
  /\ (forall request' uuid4' now' (db db' : gmap string LoanRecord) response',
        calculate_advance request' uuid4' now' db = (Returned response', db') ->
        loan_id response' <> None ->
        advance_amount request <= advance_amount request' ->
        fee response <= fee response').
Proof.
  assert (Hfee : forall r u t (d d' : gmap string LoanRecord) resp,
    calculate_advance r u t d = (Returned resp, d') -> loan_id resp <> None ->
    fee resp = Py.max 10 (Py.min 50 (advance_amount r * 0.05))).
  { intros r u t d d' resp Hret Hid.
    apply calculate_advance_returned in Hret.
    destruct Hret as (ms & _ & [(_ & _ & H & _) | [(_ & _ & _ & H & _) | (_ & _ & figures & _ & -> & _)]]);
      [contradiction | contradiction | reflexivity]. }
  intros Hret Hid. rewrite (Hfee _ _ _ _ _ _ Hret Hid).
  destruct (fee_breakpoints (advance_amount request)) as (H1 & H2 & H3).
  split; [exact H1|]. split; [exact H2|]. split; [exact H3|].
  intros request' uuid4' now' db db' response' Hret' Hid' Hle.
  rewrite (Hfee _ _ _ _ _ _ Hret' Hid'). apply fee_monotone. exact Hle.
Qed.

Lemma X7_witness :
  fee (approved_response (request_of 4000 "Monthly" 1500 None)
         example_uuid 4000 (None, None)) = 50.
Proof.
  refine (proj1 (proj2 (X7_fee_schedule _ _ _ _ _ _ scenario_1500 _)) _).
  - discriminate.
  - unfold Qle; simpl; lia.
Defined.

(** ** The normalizer across salaries and frequencies *)

Lemma convert_monotone (f : string) (g g' m m' : Q) :
  g <= g' ->
  convert_to_monthly_salary g f = Py.Ok m ->
  convert_to_monthly_salary g' f = Py.Ok m' ->
  m <= m'.
Proof.
  intros Hg H H'. unfold convert_to_monthly_salary in *.
  destruct (String.eqb f "Weekly").
  { injection H as <-. injection H' as <-.
    unfold Qdiv. apply Qmult_le_compat_r; [lra | discriminate]. }
  destruct (String.eqb f "Bi-Weekly").
  { injection H as <-. injection H' as <-.
    unfold Qdiv. apply Qmult_le_compat_r; [lra | discriminate]. }
  destruct (String.eqb f "Monthly").
  { injection H as <-. injection H' as <-. exact Hg. }
  destruct (String.eqb f "Annually"); [|discriminate].
  injection H as <-. injection H' as <-.
  unfold Qdiv. apply Qmult_le_compat_r; [exact Hg | discriminate].
Qed.

(** Eligibility and the maximum advance of a response, from the monthly
    salary. *)
Lemma response_by_salary request uuid4 now
    (loans_db loans_db' : gmap string LoanRecord) response :
  calculate_advance request uuid4 now loans_db = (Returned response, loans_db') ->
  exists monthly_salary,
    convert_to_monthly_salary (gross_salary request) (pay_frequency request)
    = Py.Ok monthly_salary
    /\ ((eligible response = false /\ monthly_salary < 1000
         /\ max_advance response = 0)
        \/ (eligible response = true /\ 1000 <= monthly_salary
            /\ max_advance response = monthly_salary * 0.5)).
Proof.
  intros Hret. pose proof Hret as Hret'.
  apply calculate_advance_returned in Hret'.
  destruct Hret' as (ms & Hms & Hcases). exists ms. split; [exact Hms|].
  destruct Hcases as [(Hlow & _) | [(Hok & Hcap & _) | (Hok & Hcap & figures & _ & -> & _)]].
  - rewrite (calculate_advance_ineligible _ _ _ _ _ Hms Hlow) in Hret.
    injection Hret as <- _. left. cbn. auto.
  - rewrite (calculate_advance_over_cap _ _ _ _ _ Hms Hok Hcap) in Hret.
    injection Hret as <- _. right. cbn. auto.
  - right. cbn. auto.
Qed.

(** X8.  At one pay frequency a higher gross salary never loses
    eligibility and never lowers the maximum advance: of two answered
    requests with the same frequency, if the one with the lower gross
    salary is eligible so is the other, and its maximum advance is at most
    the other's. *)
Theorem X8_eligibility_monotone request request' uuid4 uuid4' now now'
    (loans_db loans_db1 loans_db' loans_db1' : gmap string LoanRecord)
    response response' :
  calculate_advance request uuid4 now loans_db = (Returned response, loans_db1) ->
  calculate_advance request' uuid4' now' loans_db' = (Returned response', loans_db1') ->
  pay_frequency request = pay_frequency request' ->
  gross_salary request <= gross_salary request' ->
  (eligible response = true -> eligible response' = true)
  /\ max_advance response <= max_advance response'.
Proof.
  intros Hret Hret' Hf Hg.
  destruct (response_by_salary request uuid4 now loans_db loans_db1 response Hret)
    as (ms & Hms & He).
  destruct (response_by_salary request' uuid4' now' loans_db' loans_db1' response' Hret')
    as (ms' & Hms' & He').
  rewrite Hf in Hms.
  pose proof (convert_monotone _ _ _ _ _ Hg Hms Hms') as Hle.
  destruct He as [(-> & Hlow & ->) | (-> & Hok & ->)];
    destruct He' as [(-> & Hlow' & ->) | (-> & Hok' & ->)].
  - split; [discriminate | apply Qle_refl].
  - split; [reflexivity | lra].
  - exfalso. lra.
  - split; [reflexivity | lra].
Qed.

Lemma X8_witness :
  0 <= max_advance (approved_response (request_of 4000 "Monthly" 1500 None)
                      example_uuid 4000 (None, None)).
Proof.
  refine (proj2 (X8_eligibility_monotone
    (request_of 500 "Monthly" 100 None) (request_of 4000 "Monthly" 1500 None)
    example_uuid example_uuid example_now example_now ∅ ∅ ∅ _ _ _
    (calculate_advance_ineligible (request_of 500 "Monthly" 100 None)
       example_uuid example_now ∅ 500 eq_refl eq_refl)
    scenario_1500 _ _)).
  - reflexivity.
  - unfold Qle; simpl; lia.
Defined.

(** X9.  The normalizer gives the same monthly figure to the same pay
    stated at another frequency: [g] a week is [2 * g] every two weeks and
    [52 * g] a year, and [g] every two weeks is [26 * g] a year. *)
Theorem X9_frequencies_agree (g : Q) :
  same_monthly (convert_to_monthly_salary g "Weekly")
               (convert_to_monthly_salary (2 * g) "Bi-Weekly")
  /\ same_monthly (convert_to_monthly_salary g "Weekly")
                  (convert_to_monthly_salary (52 * g) "Annually")
  /\ same_monthly (convert_to_monthly_salary g "Bi-Weekly")
                  (convert_to_monthly_salary (26 * g) "Annually").
Proof.
  repeat split; cbn; field.
Qed.

(** ** Rounding keeps the order *)

Lemma round_half_even_bounds (x : Q) :
  (Qfloor x <= Py.round_half_even x <= Qfloor x + 1)%Z.
Proof.
  unfold Py.round_half_even.
  destruct (Qcompare _ _); [destruct (Z.even _)| |]; lia.
Qed.

Lemma round_half_even_monotone (x y : Q) :
  x <= y -> (Py.round_half_even x <= Py.round_half_even y)%Z.
Proof.
  intros Hxy.
  pose proof (Qfloor_resp_le _ _ Hxy) as Hf.
  destruct (Z.eq_dec (Qfloor x) (Qfloor y)) as [E | Hne].
  - unfold Py.round_half_even. rewrite E.
    assert (Hfrac : x - inject_Z (Qfloor y) <= y - inject_Z (Qfloor y)) by lra.
    destruct (Qcompare_spec (x - inject_Z (Qfloor y)) (1 # 2)) as [Hx | Hx | Hx];
      destruct (Qcompare_spec (y - inject_Z (Qfloor y)) (1 # 2)) as [Hy | Hy | Hy];
      try destruct (Z.even (Qfloor y)); try lia; exfalso; lra.
  - pose proof (round_half_even_bounds x). pose proof (round_half_even_bounds y). lia.
Qed.

Lemma round2_monotone (x y : Q) : x <= y -> Py.round2 x <= Py.round2 y.
Proof.
  intros Hxy. unfold Py.round2.
  assert (H : (Py.round_half_even (x * 100) <= Py.round_half_even (y * 100))%Z).
  { apply round_half_even_monotone. lra. }
  unfold Qle. simpl. lia.
Qed.

Lemma round2_idempotent (x : Q) : Py.round2 (Py.round2 x) = Py.round2 x.
Proof. unfold Py.round2 at 2 3. apply round2_cents. Qed.

(** ** The schedule, row by row *)

Lemma to_records_Month month payment principal interest balance :
  length payment = length month -> length principal = length month ->
  length interest = length month -> length balance = length month ->
  map Month (to_records month payment principal interest balance) = month.
Proof.
  revert payment principal interest balance.
  induction month as [|m month IH];
    intros [|p payment] [|c principal] [|i interest] [|b balance];
    simpl; intros; try congruence.
  f_equal. apply IH; congruence.
Qed.

(** X10.  A schedule that is returned has one row per month of the term,
    numbered 1, 2, ... in order, and its rows all show the same payment,
    the same principal part and the same interest. *)
Theorem X10_schedule_rows principal rate term_months rows :
  generate_amortization_schedule principal rate term_months = Py.Ok rows ->
  map Month rows = map Z.of_nat (seq 1 (Z.to_nat term_months))
  /\ length rows = Z.to_nat term_months
  /\ exists payment principal_part interest,
       forall row, In row rows ->
         Payment row = payment /\ Principal row = principal_part
         /\ Interest row = interest.
Proof.
  intros H. split; [|split].
  - destruct (schedule_unfold _ _ _ rows H) as (payment & _ & ->).
    unfold schedule_of_payment. rewrite to_records_Month.
    + unfold range1. do 3 f_equal. lia.
    + apply length_broadcast.
    + apply length_broadcast.
    + apply length_broadcast.
    + rewrite length_round2, length_clip_lower, length_sub;
        rewrite length_shift1, ?length_cumsum, !length_broadcast; reflexivity.
  - exact (schedule_length _ _ _ _ H).
  - destruct (schedule_unfold _ _ _ rows H) as (payment & _ & ->).
    eexists. eexists. eexists. intros row Hin.
    apply to_records_In in Hin. destruct Hin as (_ & Hp & Hc & Hi & _).
    split; [exact (In_broadcast _ _ _ Hp)|].
    split; [exact (In_broadcast _ _ _ Hc) | exact (In_broadcast _ _ _ Hi)].
Qed.

Lemma X10_witness :
  exists rows,
    generate_amortization_schedule 1200 12 2 = Py.Ok rows
    /\ map Month rows = [1%Z; 2%Z].
Proof.
  eexists. split; [vm_compute; reflexivity|].
  refine (proj1 (X10_schedule_rows 1200 12 2 _ _)).
  vm_compute. reflexivity.
Defined.

(** X11.  In a schedule whose payment covers the monthly interest on the
    principal, the balance never goes up from one row to a later one (and,
    never being negative, stays at 0 once it is there). *)
Theorem X11_balance_never_rises principal rate term_months rows
    (i j : nat) row_i row_j :
  generate_amortization_schedule principal rate term_months = Py.Ok rows ->
  rows !! i = Some row_i ->
  rows !! j = Some row_j ->
  (i <= j)%nat ->
  principal * (rate / 100 / 12) <= Payment row_i ->
  Balance row_j <= Balance row_i /\ 0 <= Balance row_j.
Proof.
  intros H Hi Hj Hij Hcover.
  destruct (schedule_row _ _ _ rows i row_i H Hi)
    as (payment & Hpay & _ & Hp & _ & _ & Hbi).
  destruct (schedule_row _ _ _ rows j row_j H Hj)
    as (payment' & Hpay' & _ & _ & _ & _ & Hbj).
  assert (payment' = payment) as -> by congruence.
  rewrite Hp, round2_idempotent in Hcover.
  split.
  - rewrite Hbi, Hbj. apply round2_monotone. cbv zeta.
    set (c := Py.round2 payment - principal * (rate / 100 / 12)) in *.
    assert (Hc : 0 <= c) by (unfold c; lra).
    assert (Hsteps : inject_Z (Z.of_nat i + 1) <= inject_Z (Z.of_nat j + 1)).
    { rewrite <- Zle_Qle. lia. }
    assert (Hdown : principal - inject_Z (Z.of_nat j + 1) * c
                    <= principal - inject_Z (Z.of_nat i + 1) * c).
    { assert (inject_Z (Z.of_nat i + 1) * c <= inject_Z (Z.of_nat j + 1) * c).
      { apply Qmult_le_compat_r; assumption. }
      lra. }
    destruct (Py.ltb (principal - inject_Z (Z.of_nat j + 1) * c) 0) eqn:Ej;
      destruct (Py.ltb (principal - inject_Z (Z.of_nat i + 1) * c) 0) eqn:Ei;
      try apply ltb_true in Ej; try apply ltb_false in Ej;
      try apply ltb_true in Ei; try apply ltb_false in Ei; lra.
  - apply (schedule_balance_nonneg _ _ _ rows row_j H).
    apply list_elem_of_In. eapply list_elem_of_lookup_2. exact Hj.
Qed.

Lemma X11_witness :
  5.98 <= 602.99.
Proof.
  refine (proj1 (X11_balance_never_rises 1200 12 2 _ 0 1
    {| Month := 1; Payment := 609.01; Principal := 597.01;
       Interest := 12.00; Balance := 602.99 |}
    {| Month := 2; Payment := 609.01; Principal := 597.01;
       Interest := 12.00; Balance := 5.98 |} _ _ _ _ _)).
  - vm_compute. reflexivity.
  - reflexivity.
  - reflexivity.
  - lia.
  - vm_compute. discriminate.
Defined.

(** ** Zero rates and zero terms *)




(** ** Compound interest does not shrink a loan *)



(** ** The two orchestrators *)

Lemma legacy_convert (g : Q) (f : string) :
  Legacy.convert_to_monthly_salary g f = convert_to_monthly_salary g f.
Proof. reflexivity. Qed.

(** X14.  The orchestrator of [src/main.py] takes the decisions of the one
    of [Backend/main.py]: on the same request, identifier, timestamp and
    store (less the loan figures of its records), whenever the latter
    returns a response the former returns one with the same eligibility,
    maximum advance, approved amount, fee and [loan_id], and it leaves the
    same store, less the loan figures. *)
Theorem X14_orchestrators_agree (float_str : Q -> string) request uuid4 now
    (loans_db loans_db' : gmap string LoanRecord) response :
  calculate_advance request uuid4 now loans_db = (Returned response, loans_db') ->
  exists response_l,
    Legacy.calculate_advance float_str (legacy_request request) uuid4 now
      (legacy_record <$> loans_db)
    = (Returned response_l, legacy_record <$> loans_db')
    /\ Legacy.eligible response_l = eligible response
    /\ Legacy.max_advance response_l = max_advance response
    /\ Legacy.approved_amount response_l = approved_amount response
    /\ Legacy.fee response_l = fee response
    /\ Legacy.loan_id response_l = loan_id response.
Proof.
  intros Hret. pose proof Hret as Hret'.
  apply calculate_advance_returned in Hret'.
  destruct Hret' as (ms & Hms & Hcases).
  unfold Legacy.calculate_advance, Legacy.calculate_advance_body.
  rewrite legacy_convert. cbn [legacy_request Legacy.gross_salary Legacy.pay_frequency
                                Legacy.advance_amount].
  rewrite Hms. unfold mbind, Py.result_bind.
  destruct Hcases as [(Hlow & _) | [(Hok & Hcap & _) | (Hok & Hcap & figures & _ & -> & ->)]].
  - rewrite (calculate_advance_ineligible _ _ _ _ _ Hms Hlow) in Hret.
    injection Hret as <- <-.
    apply geb_false in Hlow. rewrite Hlow. cbn [negb].
    eexists. split; [reflexivity|]. cbn. auto.
  - rewrite (calculate_advance_over_cap _ _ _ _ _ Hms Hok Hcap) in Hret.
    injection Hret as <- <-.
    apply geb_true in Hok. apply gtb_true in Hcap. rewrite Hok. cbn [negb].
    rewrite Hcap.
    eexists. split; [reflexivity|]. cbn. auto.
  - apply geb_true in Hok. apply gtb_false in Hcap. rewrite Hok. cbn [negb].
    rewrite Hcap, fmap_insert.
    eexists. split; [reflexivity|]. cbn. auto.
Qed.

Lemma X14_witness :
  exists response_l,
    Legacy.calculate_advance (fun _ => "")
      (legacy_request (request_of 4000 "Monthly" 1500 None)) example_uuid example_now ∅
    = (Returned response_l,
       legacy_record
         <$> (<[example_uuid := approved_record (request_of 4000 "Monthly" 1500 None)
                                  example_uuid example_now (None, None)]> ∅))
    /\ Legacy.fee response_l = 50.
Proof.
  destruct (X14_orchestrators_agree (fun _ => "") _ _ _ _ _ _ scenario_1500)
    as (response_l & Hrun & _ & _ & _ & Hfee & _).
  exists response_l. rewrite fmap_empty in Hrun. split; [exact Hrun | exact Hfee].
Defined.

(** X15.  The orchestrator of [src/main.py] answers every request whose
    pay frequency is known, and its only error answer is the 400 for an
    unknown frequency, which leaves the store as it was: it has no loan
    computation that could fail. *)
Theorem X15_legacy_answers (float_str : Q -> string) request uuid4 now
    (loans_db : gmap string Legacy.LoanRecord) :
  (known_frequency (Legacy.pay_frequency request) ->
   exists response loans_db',
     Legacy.calculate_advance float_str request uuid4 now loans_db
     = (Returned response, loans_db'))
  /\ (forall status detail loans_db',
        Legacy.calculate_advance float_str request uuid4 now loans_db
        = (HTTPException status detail, loans_db') ->
        status = 400%Z /\ detail = "Invalid pay frequency" /\ loans_db' = loans_db
        /\ ~ known_frequency (Legacy.pay_frequency request)).
Proof.
  unfold Legacy.calculate_advance, Legacy.calculate_advance_body.
  rewrite legacy_convert. split.
  - intros Hk.
    destruct (convert_known_ok (Legacy.gross_salary request) _ Hk) as [ms ->].
    unfold mbind, Py.result_bind.
    destruct (negb (Py.geb ms 1000)); [eauto|].
    destruct (Py.gtb (Legacy.advance_amount request) (ms * 0.5)); eauto.
  - intros status detail loans_db'.
    destruct (convert_to_monthly_salary (Legacy.gross_salary request)
                (Legacy.pay_frequency request)) as [ms|e] eqn:Hms.
    + unfold mbind, Py.result_bind.
      destruct (negb (Py.geb ms 1000)); [discriminate|].
      destruct (Py.gtb (Legacy.advance_amount request) (ms * 0.5)); discriminate.
    + pose proof (convert_raises_only_unknown _ _ _ Hms) as Hf.
      rewrite (convert_unknown _ _ Hf) in Hms. injection Hms as <-.
      cbn. intros H. injection H as <- <- <-. auto.
Qed.

(** ** The form *)

(** X16.  A submission of the form, with the values its widgets allow, is
    always answered with a response (never with an error status), and the
    response never has an amortization schedule; it has no total repayable
    when the loan box is not ticked. *)
Theorem X16_form_submission form uuid4 now (loans_db : gmap string LoanRecord) :
  Frontend.widgets form ->
  exists response loans_db',
    calculate_advance (payload form) uuid4 now loans_db = (Returned response, loans_db')
    /\ amortization_schedule response = None
    /\ (Frontend.include_loan form = false -> total_repayable response = None).
Proof.
  intros (_ & Hf & _).
  assert (Hk : known_frequency (Frontend.pay_frequency form)).
  { unfold known_frequency. cbn in Hf. intuition. }
  destruct (convert_known_ok (Frontend.gross_salary form) _ Hk) as [ms Hms].
  destruct (Qlt_le_dec ms 1000) as [Hlow|Hok].
  { eexists. eexists. split.
    - exact (calculate_advance_ineligible (payload form) _ _ _ _ Hms Hlow).
    - cbn. auto. }
  destruct (Qlt_le_dec (ms * 0.5) (Frontend.advance_amount form)) as [Hcap|Hcap].
  { eexists. eexists. split.
    - exact (calculate_advance_over_cap (payload form) _ _ _ _ Hms Hok Hcap).
    - cbn. auto. }
  assert (Hfig : exists total, loan_figures (payload form) = Py.Ok (total, None)
                   /\ (Frontend.include_loan form = false -> total = None)).
  { rewrite loan_figures_unfold. unfold loan_triple_truthy. cbn.
    destruct (Frontend.include_loan form); cbn.
    - destruct (_ && _); eexists; split; try reflexivity; discriminate.
    - eexists. split; reflexivity. }
  destruct Hfig as (total & Hfig & Hnone).
  eexists. eexists. split.
  - exact (calculate_advance_approved (payload form) _ _ _ _ Hms (total, None) Hok Hcap Hfig).
  - cbn. auto.
Qed.

Lemma X16_witness :
  exists response loans_db',
    calculate_advance
      (payload {| Frontend.gross_salary := 4000; Frontend.pay_frequency := "Monthly";
                  Frontend.advance_amount := 1500; Frontend.include_loan := true;
                  Frontend.loan_amount := 10000; Frontend.interest_rate := 5;
                  Frontend.loan_term := 12 |})
      example_uuid example_now ∅
    = (Returned response, loans_db')
    /\ amortization_schedule response = None
    /\ (true = false -> total_repayable response = None).
Proof.
  refine (X16_form_submission
    {| Frontend.gross_salary := 4000; Frontend.pay_frequency := "Monthly";
       Frontend.advance_amount := 1500; Frontend.include_loan := true;
       Frontend.loan_amount := 10000; Frontend.interest_rate := 5;
       Frontend.loan_term := 12 |} example_uuid example_now ∅ _).
  unfold Frontend.widgets. cbn.
  repeat split; try (unfold Qle; simpl; lia); try lia.
  right. right. left. reflexivity.
Defined.

(** ** What is stored and what is answered *)

(** X17.  The record stored for an approval agrees with the response:
    [get_loan] on the [loan_id] of the response returns a record with that
    identifier, the fee, the total repayable and the schedule of the
    response, and an advance equal to the approved amount. *)
Theorem X17_record_matches_response request uuid4 now
    (loans_db loans_db' : gmap string LoanRecord) response id :
  calculate_advance request uuid4 now loans_db = (Returned response, loans_db') ->
  loan_id response = Some id ->
  exists record,
    get_loan id loans_db' = Returned record
    /\ rec_loan_id record = id
    /\ rec_fee record = fee response
    /\ rec_advance_amount record = approved_amount response
    /\ rec_total_repayable record = total_repayable response
    /\ rec_amortization_schedule record = amortization_schedule response.
Proof.
  intros Hret Hid. apply calculate_advance_returned in Hret.
  destruct Hret as (ms & _ & [(_ & _ & H & _) | [(_ & _ & _ & H & _) | (_ & _ & figures & _ & -> & ->)]]);
    [congruence | congruence |].
  cbn in Hid. injection Hid as <-.
  exists (approved_record request uuid4 now figures).
  unfold get_loan. rewrite lookup_insert_eq. cbn. auto 10.
Qed.

Lemma X17_witness :
  exists record,
    get_loan example_uuid
      (<[example_uuid := approved_record (request_of 4000 "Monthly" 1500 None)
                           example_uuid example_now (None, None)]> ∅)
    = Returned record
    /\ rec_fee record = 50.
Proof.
  destruct (X17_record_matches_response _ _ _ _ _ _ example_uuid scenario_1500 eq_refl)
    as (record & Hget & _ & Hfee & _).
  exists record. split; [exact Hget | exact Hfee].
Defined.

(** X18.  When the identifier drawn is already in the store, an approval
    replaces the record stored under it and the store keeps its size; a
    rejection or an error leaves the older record in place. *)
Theorem X18_identifier_collision request uuid4 now
    (loans_db : gmap string LoanRecord) older :
  loans_db !! uuid4 = Some older ->
  size (snd (calculate_advance request uuid4 now loans_db)) = size loans_db
  /\ (answered_id (fst (calculate_advance request uuid4 now loans_db)) = None ->
      get_loan uuid4 (snd (calculate_advance request uuid4 now loans_db))
      = Returned older)
  /\ (answered_id (fst (calculate_advance request uuid4 now loans_db)) <> None ->
      exists record,
        get_loan uuid4 (snd (calculate_advance request uuid4 now loans_db))
        = Returned record
        /\ rec_timestamp record = now
        /\ snapshot_of record request).
Proof.
  intros Hold.
  destruct (calculate_advance_store request uuid4 now loans_db)
    as [(Hid & ->) | (Hid & figures & ->)]; rewrite Hid.
  - split; [reflexivity|]. split; [|congruence].
    intros _. unfold get_loan. rewrite Hold. reflexivity.
  - split; [|split; [discriminate|]].
    + rewrite <- (insert_id loans_db uuid4 older Hold) at 2.
      rewrite <- (insert_delete_eq loans_db),
              <- (insert_delete_eq loans_db uuid4 older).
      rewrite !map_size_insert_None by apply lookup_delete_eq. reflexivity.
    + intros _. exists (approved_record request uuid4 now figures).
      unfold get_loan. rewrite lookup_insert_eq.
      unfold snapshot_of. cbn. tauto.
Qed.

Lemma X18_witness :
  size (snd (calculate_advance (request_of 4000 "Monthly" 100 None)
               example_uuid example_now
               (<[example_uuid := approved_record (request_of 4000 "Monthly" 1500 None)
                                    example_uuid example_now (None, None)]> ∅)))
  = size (<[example_uuid := approved_record (request_of 4000 "Monthly" 1500 None)
                              example_uuid example_now (None, None)]>
            (∅ : gmap string LoanRecord)).
Proof.
  refine (proj1 (X18_identifier_collision _ _ _ _ _ _)).
  apply lookup_insert_eq.
Defined.

(** ** The evaluator on approvals (C7) *)

(** Python's [max] and [min] of two numbers are the larger and the smaller
    one. *)
Lemma py_max_Qmax (a b : Q) : Py.max a b == Qmax a b.
Proof.
  unfold Py.max. destruct (Py.gtb b a) eqn:E.
  - apply gtb_true in E. symmetry. apply Q.max_r. apply Qlt_le_weak, E.
  - apply gtb_false in E. symmetry. apply Q.max_l. exact E.
Qed.

Lemma py_min_Qmin (a b : Q) : Py.min a b == Qmin a b.
Proof.
  unfold Py.min. destruct (Py.ltb b a) eqn:E.
  - apply ltb_true in E. symmetry. apply Q.min_r. apply Qlt_le_weak, E.
  - apply ltb_false in E. symmetry. apply Q.min_l. exact E.
Qed.

Lemma fee_is_clamp (x : Q) : Py.max 10 (Py.min 50 x) == Qmax 10 (Qmin 50 x).
Proof.
  rewrite py_max_Qmax. apply Q.max_compat; [reflexivity | apply py_min_Qmin].
Qed.

(** C7, as amended.  For every request with a monthly salary of at least
    1000 and an advance between 0 and half the monthly salary, every
    outcome returned has [eligible = true], [approved_amount] equal to the
    requested advance and [fee = max(10.0, min(50.0, advance * 0.05))]:
    10 for an advance up to 200, 5% of the advance between 200 and 1000,
    50 from 1000 on, hence [10 <= fee <= 50] (an advance of 1500 gives 50,
    an advance of 100 gives 10).  An outcome is returned when the loan
    fields are ordinary; when the loan computations raise, the request is
    answered with an error status instead and the store is left as it
    was. *)
Theorem C7_approval request uuid4 now (loans_db : gmap string LoanRecord)
    monthly_salary :
  convert_to_monthly_salary (gross_salary request) (pay_frequency request)
  = Py.Ok monthly_salary ->
  1000 <= monthly_salary ->
  0 <= advance_amount request ->
  advance_amount request <= monthly_salary * 0.5 ->
  (forall response loans_db',
     calculate_advance request uuid4 now loans_db = (Returned response, loans_db') ->
     eligible response = true
     /\ approved_amount response = advance_amount request
     /\ fee response == Qmax 10 (Qmin 50 (advance_amount request * 0.05))
     /\ 10 <= fee response /\ fee response <= 50
     /\ (advance_amount request <= 200 -> fee response = 10)
     /\ (200 <= advance_amount request -> advance_amount request <= 1000 ->
         fee response == advance_amount request * 0.05)
     /\ (1000 <= advance_amount request -> fee response = 50)
     /\ (advance_amount request == 1500 -> fee response = 50)
     /\ (advance_amount request == 100 -> fee response = 10))
  /\ (ordinary_loan request ->
      exists response loans_db',
        calculate_advance request uuid4 now loans_db = (Returned response, loans_db'))
  /\ (forall e, loan_figures request = Py.Raise e ->
      exists status detail,
        calculate_advance request uuid4 now loans_db
        = (HTTPException status detail, loans_db)).
Proof.
  intros Hms Hok Hpos Hcap. split; [|split].
  - intros response loans_db' Hret.
    destruct (loan_figures request) as [figures|e] eqn:Hfig.
    + rewrite (calculate_advance_approved _ _ _ _ _ Hms figures Hok Hcap Hfig) in Hret.
      injection Hret as <- _.
      cbn [eligible approved_amount fee approved_response].
      destruct (fee_breakpoints (advance_amount request)) as (Hlow & Hhigh & Hmid).
      destruct (fee_band (advance_amount request * 0.05)) as [Hmin Hmax].
      split; [reflexivity|]. split; [reflexivity|].
      split; [apply fee_is_clamp|].
      split; [exact Hmin|]. split; [exact Hmax|].
      split; [exact Hlow|]. split; [exact Hmid|]. split; [exact Hhigh|].
      split.
      * intros E. apply Hhigh. rewrite E. discriminate.
      * intros E. apply Hlow. rewrite E. discriminate.
    + destruct (calculate_advance_loan_failure _ uuid4 now loans_db _ Hms e Hok Hcap Hfig)
        as (st & d & Hfail).
      rewrite Hfail in Hret. discriminate.
  - intros Hord.
    destruct (ordinary_loan_figures request Hord) as [figures Hfig].
    eexists. eexists.
    exact (calculate_advance_approved _ _ _ _ _ Hms figures Hok Hcap Hfig).
  - intros e Hfig.
    exact (calculate_advance_loan_failure _ uuid4 now loans_db _ Hms e Hok Hcap Hfig).
Qed.

Lemma C7_witness :
  eligible (approved_response (request_of 4000 "Monthly" 1500 None)
              example_uuid 4000 (None, None)) = true
  /\ approved_amount (approved_response (request_of 4000 "Monthly" 1500 None)
                       example_uuid 4000 (None, None)) = 1500
  /\ fee (approved_response (request_of 4000 "Monthly" 1500 None)
            example_uuid 4000 (None, None)) = 50.
Proof.
  destruct (proj1 (C7_approval (request_of 4000 "Monthly" 1500 None)
                     example_uuid example_now ∅ 4000 eq_refl
                     ltac:(unfold Qle; simpl; lia) ltac:(unfold Qle; simpl; lia)
                     ltac:(unfold Qle; simpl; lia))
              _ _ scenario_1500)
    as (He & Ha & _ & _ & _ & _ & _ & Hfee & _).
  split; [exact He|]. split; [exact Ha|].
  apply Hfee. unfold Qle; simpl; lia.
Defined.

(** C7, as stated, fails for a request that meets its conditions and asks
    for the schedule of a loan at -2400 percent over 2 months: the payment
    formula divides by zero and the request is answered with status 500,
    with no outcome. *)
Lemma C7_counterexample :
  convert_to_monthly_salary (gross_salary request_negative_rate)
    (pay_frequency request_negative_rate) = Py.Ok 4000
  /\ 1000 <= 4000
  /\ 0 <= advance_amount request_negative_rate
  /\ advance_amount request_negative_rate <= 4000 * 0.5
  /\ calculate_advance request_negative_rate example_uuid example_now ∅
     = (HTTPException 500 "Internal server error", ∅)
  /\ ~ exists response loans_db',
         calculate_advance request_negative_rate example_uuid example_now ∅
         = (Returned response, loans_db').
Proof.
  assert (Hrun : calculate_advance request_negative_rate example_uuid example_now ∅
                 = (HTTPException 500 "Internal server error", ∅)).
  { unfold calculate_advance, calculate_advance_body.
    change (convert_to_monthly_salary (gross_salary request_negative_rate)
              (pay_frequency request_negative_rate)) with (@Py.Ok Q 4000).
    unfold mbind, Py.result_bind.
    replace (Py.geb 4000 1000) with true by reflexivity. cbn [negb].
    replace (Py.gtb (advance_amount request_negative_rate) (4000 * 0.5))
      with false by reflexivity.
    replace (loan_figures request_negative_rate)
      with (@Py.Raise (option Q * option (list AmortizationRow)) Py.ZeroDivisionError)
      by (vm_compute; reflexivity).
    reflexivity. }
  split; [reflexivity|].
  split; [unfold Qle; simpl; lia|].
  split; [unfold Qle; simpl; lia|].
  split; [unfold Qle; simpl; lia|].
  split; [exact Hrun|].
  intros (response & loans_db' & Hret). rewrite Hrun in Hret. discriminate Hret.
Qed.
